(** * Live View tab controller of the video-mode dashboard

    A shallow embedding of
    [qua_dashboards/video_mode/tab_controllers/live_view_tab_controller.py]
    together with the collaborators it talks to: the data acquirer (an
    interface), the shared data registry and the Dash callback context.

    Python values are embedded as the inductive [pyval]; Python [str] values
    are Rocq strings, one [ascii] per character, so the text handled is ASCII
    text.  Methods that log, call the acquirer or raise run in the monad [M]
    over the record [world]. *)

From Stdlib Require Import ZArith String Ascii List Bool Lia DecimalString.
From stdpp Require Import base option list strings gmap.

Local Open Scope string_scope.
Local Open Scope Z_scope.
Local Set Warnings "-register-all".

(** ** Python values *)

Module Py.

(** The values that reach the controller: the JSON-like values Dash hands to a
    callback and the entries of the acquirer's state snapshot.  A [PDict] lists
    its items in insertion order; its keys are strings. *)
Inductive pyval : Type :=
| PNone
| PBool (b : bool)
| PInt (z : Z)
| PStr (s : string)
| PList (l : list pyval)
| PDict (d : list (string * pyval)).

Inductive exn : Type :=
| TypeError
| AttributeError
| IndexError
| AcquirerFault (detail : string).

(** [bool(v)]. *)
Definition truthy (v : pyval) : bool :=
  match v with
  | PNone => false
  | PBool b => b
  | PInt z => negb (z =? 0)
  | PStr s => negb (String.eqb s "")
  | PList l => match l with [] => false | _ => true end
  | PDict d => match d with [] => false | _ => true end
  end.

(** Values with a [__hash__]: lists and dicts have none. *)
Definition hashable (v : pyval) : bool :=
  match v with
  | PList _ | PDict _ => false
  | _ => true
  end.

(** [k1 == k2] on hashable values; [True == 1] and [False == 0] as in Python,
    so that such keys share one dict slot. *)
Definition key_eqb (k1 k2 : pyval) : bool :=
  match k1, k2 with
  | PNone, PNone => true
  | PBool a, PBool b => Bool.eqb a b
  | PBool a, PInt z | PInt z, PBool a => z =? (if a then 1 else 0)
  | PInt a, PInt b => a =? b
  | PStr a, PStr b => String.eqb a b
  | _, _ => false
  end.

(** [v == s] for a string [s]. *)
Definition eq_str (v : pyval) (s : string) : bool :=
  match v with
  | PStr t => String.eqb t s
  | _ => false
  end.

(** *** Dictionaries, in insertion order *)

Section Dict.
Context {K V : Type} (eqb : K -> K -> bool).

(** [d.get(k)], as an option. *)
Fixpoint dict_get (k : K) (d : list (K * V)) : option V :=
  match d with
  | [] => None
  | (k', v) :: rest => if eqb k' k then Some v else dict_get k rest
  end.

(** [k in d]. *)
Definition dict_in (k : K) (d : list (K * V)) : bool :=
  match dict_get k d with Some _ => true | None => false end.

(** [d[k] = v]: an existing key keeps its place, a new one goes last. *)
Fixpoint dict_set (k : K) (v : V) (d : list (K * V)) : list (K * V) :=
  match d with
  | [] => [(k, v)]
  | (k', v') :: rest =>
      if eqb k' k then (k', v) :: rest else (k', v') :: dict_set k v rest
  end.

(** A dict display [{k1: v1, ..., kn: vn}], evaluated left to right. *)
Definition dict_display (items : list (K * V)) : list (K * V) :=
  fold_left (fun d kv => dict_set (fst kv) (snd kv) d) items [].
End Dict.

Abbreviation sdict := (list (string * pyval)).
Definition sget : string -> sdict -> option pyval := dict_get String.eqb.
Definition sin : string -> sdict -> bool := dict_in String.eqb.

(** *** Strings *)

(** [c.upper()] for one ASCII character. *)
Definition upper_ascii (c : ascii) : ascii :=
  let n := nat_of_ascii c in
  if ((97 <=? n) && (n <=? 122))%nat then ascii_of_nat (n - 32) else c.

(** [s.upper()] on ASCII text. *)
Fixpoint upper (s : string) : string :=
  match s with
  | EmptyString => EmptyString
  | String c rest => String (upper_ascii c) (upper rest)
  end.

(** [s[:n]]. *)
Fixpoint str_take (n : nat) (s : string) : string :=
  match n, s with
  | S m, String c rest => String c (str_take m rest)
  | _, _ => EmptyString
  end.

(** [str(z)] for an integer. *)
Definition str_of_int (z : Z) : string := NilZero.string_of_int (Z.to_int z).

End Py.
Export Py.

(** ** The shared data registry *)

Module data_registry.

(** Modelled from the spec: the module [qua_dashboards.video_mode.data_registry]
    is not among the sources.  The registry is a process-wide store holding,
    per key, the most recent payload and its version stamp; entries are created
    on first write and overwritten by later ones. *)
Section Registry.
Context {Payload : Type}.

Abbreviation registry := (gmap string (Payload * Z)).

(** Modelled from the spec: the version of a write is a new stamp, larger than
    the one it replaces. *)
Definition next_version (previous : option (Payload * Z)) : Z :=
  match previous with
  | Some (_, v) => v + 1
  | None => 1
  end.

(** Modelled from the spec: [write(key, payload) -> version] stores the payload
    under the key with a new version and returns that version. *)
Definition write (key : string) (payload : Payload) (r : registry)
  : Z * registry :=
  let v := next_version (r !! key) in
  (v, <[key := (payload, v)]> r).

(** Modelled from the spec: [read(key) -> (payload, version) | NotFound]
    returns the latest snapshot; [None] stands for [NotFound]. *)
Definition read (key : string) (r : registry) : option (Payload * Z) :=
  r !! key.

(** Modelled from the spec: [get_current_version(key) -> version | None]. *)
Definition get_current_version (key : string) (r : registry) : option Z :=
  snd <$> r !! key.

(** A run of writes by any callers, oldest first. *)
Definition write_all (ws : list (string * Payload)) (r : registry) : registry :=
  fold_left (fun r kp => snd (write (fst kp) (snd kp) r)) ws r.

End Registry.
End data_registry.

(** ** Dash components *)

(** A component of the layout tree: its class, its positional children and its
    keyword properties.  Text children are [Text] leaves. *)
Inductive node : Type :=
| Text (s : string)
| Elem (cls : string) (children : list node) (props : list (string * pyval)).

(** The first component of class [cls] in document order. *)
Fixpoint find_class (cls : string) (n : node) : option node :=
  match n with
  | Text _ => None
  | Elem c children _ =>
      if String.eqb c cls then Some n
      else
        (fix first (l : list node) : option node :=
           match l with
           | [] => None
           | m :: rest =>
               match find_class cls m with
               | Some hit => Some hit
               | None => first rest
               end
           end) children
  end.

(** ** The data acquirer *)

Abbreviation params := (list (pyval * pyval)).

(** The part of [BaseDataAcquirer] the controller uses.  A mutating method
    yields the acquirer's next state and the exception it raised, if any. *)
Class DataAcquirer (A : Type) := {
  acquirer_component_id : A -> string;
  acquirer_bool : A -> bool;
  get_dash_components : bool -> A -> list node;
  get_components : A -> list string;
  (** Modelled from the spec: [get_latest_data] is a non-blocking snapshot
      read; it leaves the acquirer as it is. *)
  get_latest_data : A -> sdict;
  start_acquisition : A -> option exn * A;
  stop_acquisition : A -> option exn * A;
  update_parameters : list (string * params) -> A -> option exn * A;
}.

Inductive acquirer_call : Type :=
| CallGetLatestData
| CallStartAcquisition
| CallStopAcquisition
| CallUpdateParameters (updates : list (string * params)).

(** ** What the controller takes from outside this file *)

Record LiveViewTabController := {
  component_id : string;
}.

(** [BaseComponent._get_id], the store names of [VideoModeComponent], the key
    of the live stream, the UUID generator and [str] on containers are not
    among the sources; the controller is parametric in them.  [uuid4 n] is the
    text of the [n]-th UUID the process draws. *)
Class Externals := {
  _get_id : LiveViewTabController -> string -> pyval;
  LIVE_DATA_KEY : string;
  VIEWER_DATA_STORE_SUFFIX : string;
  VIEWER_UI_STATE_STORE_SUFFIX : string;
  VIEWER_LAYOUT_CONFIG_STORE_SUFFIX : string;
  uuid4 : nat -> string;
  str_of_container : pyval -> string;
}.

(** ** Logging *)

Inductive level : Type := LvlDebug | LvlInfo | LvlWarning | LvlError.

(** One constructor per message the controller logs, carrying the values its
    f-string interpolates. *)
Inductive message : Type :=
| MsgGeneratingLayout (component_id : string)
| MsgActivated (component_id : string)
| MsgNoLiveVersion (component_id placeholder : string)
| MsgDeactivated (component_id : string)
| MsgToggleClicked (current_status : string)
| MsgAttemptStop (acquirer_id : string)
| MsgAttemptStart (acquirer_id : string)
| MsgExternalStatus (current_status : string)
| MsgValueMissing (param_id : pyval) (component_id : string)
| MsgUnexpectedIdFormat (param_id : pyval) (component_id : string).

(** ** The state the methods run in *)

Inductive outcome (X : Type) : Type :=
| Returned (x : X)
| Raised (e : exn).
Arguments Returned {X} x.
Arguments Raised {X} e.

(** The acquirer object the controller holds a reference to, the calls made on
    it so far (oldest first), the log, the registry and the number of UUIDs
    drawn. *)
Record world (A Payload : Type) := {
  acquirer : A;
  calls : list acquirer_call;
  logs : list (level * message);
  registry : gmap string (Payload * Z);
  uuid_count : nat;
}.
Arguments acquirer {A Payload} w.
Arguments calls {A Payload} w.
Arguments logs {A Payload} w.
Arguments registry {A Payload} w.
Arguments uuid_count {A Payload} w.

Section Controller.
Context {A Payload : Type} {Acq : DataAcquirer A} {Ext : Externals}.

Definition M (X : Type) : Type :=
  world A Payload -> outcome X * world A Payload.

#[local] Instance M_ret : MRet M := fun X x w => (Returned x, w).
#[local] Instance M_bind : MBind M := fun X Y k m w =>
  match m w with
  | (Returned x, w') => k x w'
  | (Raised e, w') => (Raised e, w')
  end.

Definition raise {X : Type} (e : exn) : M X := fun w => (Raised e, w).

Definition log (l : level) (m : message) : M unit := fun w =>
  (Returned tt,
   {| acquirer := acquirer w; calls := calls w; logs := logs w ++ [(l, m)];
      registry := registry w; uuid_count := uuid_count w |}).

(** Read an attribute of the acquirer object. *)
Definition acquirer_attr {X : Type} (f : A -> X) : M X := fun w =>
  (Returned (f (acquirer w)), w).

(** Call a method of the acquirer object: the call is recorded, the object
    takes its next state, and an exception of the method propagates. *)
Definition acquirer_method (c : acquirer_call) (f : A -> option exn * A)
  : M unit := fun w =>
  let '(e, a') := f (acquirer w) in
  let w' := {| acquirer := a'; calls := calls w ++ [c]; logs := logs w;
               registry := registry w; uuid_count := uuid_count w |} in
  match e with
  | None => (Returned tt, w')
  | Some e => (Raised e, w')
  end.

Definition call_get_latest_data : M sdict := fun w =>
  (Returned (get_latest_data (acquirer w)),
   {| acquirer := acquirer w; calls := calls w ++ [CallGetLatestData];
      logs := logs w; registry := registry w; uuid_count := uuid_count w |}).

(** [data_registry.get_current_version(key)]. *)
Definition registry_current_version (key : string) : M (option Z) := fun w =>
  (Returned (data_registry.get_current_version key (registry w)), w).

(** [str(uuid.uuid4())]. *)
Definition fresh_uuid : M string := fun w =>
  (Returned (uuid4 (uuid_count w)),
   {| acquirer := acquirer w; calls := calls w; logs := logs w;
      registry := registry w; uuid_count := S (uuid_count w) |}).

(** [v.upper()]: only [str] has the method. *)
Definition call_upper (v : pyval) : M string :=
  match v with
  | PStr s => mret (upper s)
  | _ => raise AttributeError
  end.

(** [str(v)]. *)
Definition py_str (v : pyval) : string :=
  match v with
  | PStr s => s
  | PNone => "None"
  | PBool true => "True"
  | PBool false => "False"
  | PInt z => str_of_int z
  | PList _ | PDict _ => str_of_container v
  end.

(** [d[k] = v] on a dict keyed by arbitrary values. *)
Definition setitem (k v : pyval) (d : params) : M params :=
  if hashable k then mret (dict_set key_eqb k v d) else raise TypeError.

(** ** class LiveViewTabController *)

Definition _TAB_LABEL : string := "Live View".
Definition _TAB_VALUE : string := "live-view-tab".
Definition _TOGGLE_ACQ_BUTTON_ID_SUFFIX : string := "toggle-acq-button".
Definition _ACQUIRER_CONTROLS_DIV_ID_SUFFIX : string := "acquirer-controls-div".
Definition _ACQUIRER_STATUS_INDICATOR_ID_SUFFIX : string :=
  "acquirer-status-indicator".
Definition _DUMMY_OUTPUT_ACQUIRER_UPDATE_SUFFIX : string :=
  "dummy-output-acquirer-updates".

(** The tree [get_layout] returns, for the acquirer object as it is now. *)
Definition layout_tree (self : LiveViewTabController) (a : A) : node :=
  let toggle_button_and_status :=
    Elem "dbc.Row"
      [ Elem "dbc.Col"
          [ Elem "dbc.Button" [Text "Start Acquisition"]
              [ ("id", _get_id self _TOGGLE_ACQ_BUTTON_ID_SUFFIX);
                ("color", PStr "success");
                ("className", PStr "me-1");
                ("style", PDict [("width", PStr "100%")]) ] ]
          [ ("width", PInt 8) ];
        Elem "dbc.Col"
          [ Elem "html.Div"
              [ Elem "dbc.Badge" [Text "STOPPED"]
                  [ ("id", _get_id self _ACQUIRER_STATUS_INDICATOR_ID_SUFFIX);
                    ("color", PStr "secondary");
                    ("className", PStr "ms-1 p-2");
                    ("style", PDict [ ("fontSize", PStr "0.9rem");
                                      ("width", PStr "100%");
                                      ("textAlign", PStr "center") ]) ] ]
              [ ("className",
                 PStr "d-flex align-items-center justify-content-center h-100") ] ]
          [ ("width", PInt 4) ] ]
      [ ("className", PStr "mb-3 align-items-center") ] in
  let acquirer_specific_controls :=
    if acquirer_bool a then get_dash_components true a
    else [ Elem "html.P"
             [Text "Data acquirer components could not be loaded."] [] ] in
  let acquirer_controls_div :=
    Elem "html.Div" acquirer_specific_controls
      [ ("id", _get_id self _ACQUIRER_CONTROLS_DIV_ID_SUFFIX);
        ("className", PStr "mt-3 p-3 border rounded") ] in
  let card_body :=
    Elem "dbc.CardBody"
      [ Elem "html.H5" [Text "Live Acquisition Control"]
          [ ("className", PStr "card-title text-light") ];
        toggle_button_and_status;
        Elem "html.Hr" [] [];
        Elem "html.H6" [Text "Acquirer Parameters"]
          [ ("className", PStr "text-light") ];
        acquirer_controls_div;
        Elem "html.Div" []
          [ ("id", _get_id self _DUMMY_OUTPUT_ACQUIRER_UPDATE_SUFFIX);
            ("style", PDict [("display", PStr "none")]) ] ]
      [] in
  Elem "dbc.Card" [card_body]
    [ ("color", PStr "dark"); ("inverse", PBool true);
      ("className", PStr "tab-card-dark") ].

Definition get_layout (self : LiveViewTabController) : M node :=
  log LvlDebug (MsgGeneratingLayout (component_id self));;
  a ← acquirer_attr id;
  mret (layout_tree self a).

Definition on_tab_activated (self : LiveViewTabController) : M sdict :=
  log LvlInfo (MsgActivated (component_id self));;
  found ← registry_current_version LIVE_DATA_KEY;
  current_live_version ←
    match found with
    | Some v => mret (PInt v)
    | None =>
        placeholder ← fresh_uuid;
        log LvlDebug (MsgNoLiveVersion (component_id self) placeholder);;
        mret (PStr placeholder)
    end;
  let viewer_data_payload :=
    dict_display String.eqb
      [ ("key", PStr LIVE_DATA_KEY); ("version", current_live_version) ] in
  let updates :=
    dict_display String.eqb
      [ (VIEWER_DATA_STORE_SUFFIX, PDict viewer_data_payload);
        (VIEWER_UI_STATE_STORE_SUFFIX, PDict []);
        (VIEWER_LAYOUT_CONFIG_STORE_SUFFIX, PDict []) ] in
  mret updates.

Definition on_tab_deactivated (self : LiveViewTabController) : M unit :=
  log LvlInfo (MsgDeactivated (component_id self)).

(** The test on [ctx.triggered_id] that opens the toggle/status handler. *)
Definition is_button_click (self : LiveViewTabController)
    (triggered_id : pyval) : bool :=
  match triggered_id with
  | PDict d =>
      eq_str (default PNone (sget "index" d)) _TOGGLE_ACQ_BUTTON_ID_SUFFIX
  | PStr s => eq_str (_get_id self _TOGGLE_ACQ_BUTTON_ID_SUFFIX) s
  | _ => false
  end.

(** The status text of the ERROR branch, before it is cut. *)
Definition error_text (error_details : pyval) : string :=
  "ERROR" +:+ (if truthy error_details then ": " +:+ py_str error_details
               else "").

(** The callback on the toggle button and the main status alert; the third
    argument is [ctx.triggered_id].  It returns button text, button colour,
    status text and status colour. *)
Definition handle_acquisition_control_and_status_update
    (self : LiveViewTabController)
    (_toggle_clicks _status_alert_trigger triggered_id : pyval)
  : M (string * string * string * string) :=
  let is_click := is_button_click self triggered_id in
  acquirer_state ← call_get_latest_data;
  current_status ←
    call_upper (default (PStr "unknown") (sget "status" acquirer_state));
  let error_details := default PNone (sget "error" acquirer_state) in
  if is_click then
    log LvlDebug (MsgToggleClicked current_status);;
    if String.eqb current_status "RUNNING" then
      acquirer_id ← acquirer_attr acquirer_component_id;
      log LvlInfo (MsgAttemptStop acquirer_id);;
      acquirer_method CallStopAcquisition stop_acquisition;;
      mret ("Start Acquisition", "success", "STOPPED", "secondary")
    else
      acquirer_id ← acquirer_attr acquirer_component_id;
      log LvlInfo (MsgAttemptStart acquirer_id);;
      acquirer_method CallStartAcquisition start_acquisition;;
      mret ("Stop Acquisition", "danger", "RUNNING", "success")
  else
    (if negb (String.eqb current_status "STOPPED")
     then log LvlDebug (MsgExternalStatus current_status)
     else mret tt);;
    if String.eqb current_status "RUNNING" then
      mret ("Stop Acquisition", "danger", "RUNNING", "success")
    else if String.eqb current_status "STOPPED" then
      mret ("Start Acquisition", "success", "STOPPED", "secondary")
    else if String.eqb current_status "ERROR" then
      let status_text := str_take 100 (error_text error_details) in
      mret ("Start Acquisition", "success", status_text, "danger")
    else
      mret ("Start Acquisition", "warning", current_status, "warning").

(** The parameter name of an id, when the id is a dict with an ["index"]
    entry: the test [isinstance(param_id_dict, dict) and "index" in
    param_id_dict] followed by [param_id_dict["index"]]. *)
Definition index_of (param_id_dict : pyval) : option pyval :=
  match param_id_dict with
  | PDict d => if sin "index" d then sget "index" d else None
  | _ => None
  end.

(** The loop of [_parse_component_parameters] over [enumerate(ids)], from
    position [idx] on. *)
Fixpoint parse_loop (component_id : string) (values : list pyval)
    (idx : nat) (ids : list pyval) (current_type_params : params)
  : M params :=
  match ids with
  | [] => mret current_type_params
  | param_id_dict :: rest =>
      match index_of param_id_dict with
      | Some param_name =>
          if (idx <? length values)%nat then
            match values !! idx with
            | Some param_value =>
                updated ← setitem param_name param_value current_type_params;
                parse_loop component_id values (S idx) rest updated
            | None => raise IndexError
            end
          else
            log LvlWarning (MsgValueMissing param_id_dict component_id);;
            parse_loop component_id values (S idx) rest current_type_params
      | None =>
          log LvlWarning (MsgUnexpectedIdFormat param_id_dict component_id);;
          parse_loop component_id values (S idx) rest current_type_params
      end
  end.

Definition _parse_component_parameters (component_id : string)
    (values ids : list pyval) : M params :=
  match values, ids with
  | [], _ | _, [] => mret []
  | _, _ => parse_loop component_id values 0 ids []
  end.

(** The loop of [handle_acquirer_parameter_update] over
    [enumerate(all_acquirer_components)], from position [i] on. *)
Fixpoint group_loop (values_by_type_list ids_by_type_list : list (list pyval))
    (i : nat) (components : list string)
    (parameters_to_update : list (string * params))
  : M (list (string * params)) :=
  match components with
  | [] => mret parameters_to_update
  | component :: rest =>
      match values_by_type_list !! i, ids_by_type_list !! i with
      | Some values, Some ids =>
          component_params ← _parse_component_parameters component values ids;
          match component_params with
          | [] =>
              group_loop values_by_type_list ids_by_type_list (S i) rest
                parameters_to_update
          | _ =>
              group_loop values_by_type_list ids_by_type_list (S i) rest
                (dict_set String.eqb component component_params
                   parameters_to_update)
          end
      | _, _ => raise IndexError
      end
  end.

(** The callback on the parameter widgets.  [all_acquirer_components] are the
    ids of the components [get_components] listed when the callback was
    registered; [args] are one list of values per component followed by one
    list of ids per component.  [tt] stands for [dash.no_update]. *)
Definition handle_acquirer_parameter_update
    (all_acquirer_components : list string) (args : list (list pyval))
  : M unit :=
  let num_comp_types := length all_acquirer_components in
  let values_by_type_list := take num_comp_types args in
  let ids_by_type_list := take num_comp_types (drop num_comp_types args) in
  parameters_to_update ←
    group_loop values_by_type_list ids_by_type_list 0
      all_acquirer_components [];
  acquirer_method (CallUpdateParameters parameters_to_update)
    (update_parameters parameters_to_update);;
  mret tt.

End Controller.

(** ** Notions the properties are stated with *)

Section Notions.
Context {A Payload : Type} {Acq : DataAcquirer A}.

(** The status the toggle/status handler reads off the acquirer's snapshot:
    the ["status"] entry in upper case, ["UNKNOWN"] when there is none; no
    status at all when the entry is not a string. *)
Definition reported_status (a : A) : option string :=
  match default (PStr "unknown") (sget "status" (get_latest_data a)) with
  | PStr s => Some (upper s)
  | _ => None
  end.

(** The ["error"] entry of the snapshot, [None] when there is none. *)
Definition reported_error (a : A) : pyval :=
  default PNone (sget "error" (get_latest_data a)).

(** The world after some more log records. *)
Definition with_logs (more : list (level * message)) (w : world A Payload)
  : world A Payload :=
  {| acquirer := acquirer w; calls := calls w; logs := logs w ++ more;
     registry := registry w; uuid_count := uuid_count w |}.

End Notions.

(** The (parameter name, value) pairs of a batch, in order: one for each
    position that has both a value and an id with an ["index"] entry. *)
Fixpoint named_values (ids values : list pyval) : list (pyval * pyval) :=
  match ids, values with
  | param_id :: ids', v :: values' =>
      match index_of param_id with
      | Some name => (name, v) :: named_values ids' values'
      | None => named_values ids' values'
      end
  | _, _ => []
  end.

(** The warnings of a batch, in order: one for each id without an ["index"]
    entry and one for each id that has no value. *)
Fixpoint skipped (component_id : string) (ids values : list pyval)
  : list (level * message) :=
  match ids with
  | [] => []
  | param_id :: ids' =>
      match index_of param_id, values with
      | Some _, _ :: _ => []
      | Some _, [] => [(LvlWarning, MsgValueMissing param_id component_id)]
      | None, _ => [(LvlWarning, MsgUnexpectedIdFormat param_id component_id)]
      end ++ skipped component_id ids' (tail values)
  end.

(** Every key of the items can be a dict key. *)
Definition hashable_keys (d : list (pyval * pyval)) : Prop :=
  Forall (fun kv => hashable (fst kv) = true) d.

(** The mapping from parameter name to value of one component's batch. *)
Definition parsed_params (values ids : list pyval) : params :=
  dict_display key_eqb (named_values ids values).

(** The grouped mapping, in the spec's words: from each owning component to
    the mapping of its parameter names to values, leaving out the components
    that contribute nothing. *)
Definition regroup (components : list string)
    (values_by_type ids_by_type : list (list pyval))
  : list (string * params) :=
  dict_display String.eqb
    (List.filter (fun cp => match snd cp with [] => false | _ => true end)
       (zip components (zip_with parsed_params values_by_type ids_by_type))).

(** ** A reference acquirer and reference externals *)

Module Reference.

(** Modelled from the spec: an acquirer with the lifecycle of section 4.2
    (STOPPED, RUNNING, ERROR), used to run the controller on concrete
    worlds. *)
Record acquisition_state := {
  status : string;
  error_detail : option string;
  parameters : list (string * params);
}.

Definition snapshot (a : acquisition_state) : sdict :=
  [ ("status", PStr (status a));
    ("error", match error_detail a with Some e => PStr e | None => PNone end) ].

Definition start (a : acquisition_state) : option exn * acquisition_state :=
  if String.eqb (status a) "running"
  then (Some (AcquirerFault "InvalidStateError"), a)
  else (None, {| status := "running"; error_detail := None;
                 parameters := parameters a |}).

Definition stop (a : acquisition_state) : option exn * acquisition_state :=
  if String.eqb (status a) "running"
  then (None, {| status := "stopped"; error_detail := error_detail a;
                 parameters := parameters a |})
  else (None, a).

Definition update (updates : list (string * params)) (a : acquisition_state)
  : option exn * acquisition_state :=
  (None, {| status := status a; error_detail := error_detail a;
            parameters :=
              fold_left (fun d cp => dict_set String.eqb (fst cp) (snd cp) d)
                updates (parameters a) |}).

#[export] Instance acquirer_interface : DataAcquirer acquisition_state := {|
  acquirer_component_id := fun _ => "data-acquirer";
  acquirer_bool := fun _ => true;
  get_dash_components := fun _ _ => [];
  get_components := fun a => map fst (parameters a);
  get_latest_data := snapshot;
  start_acquisition := start;
  stop_acquisition := stop;
  update_parameters := update;
|}.

(** Modelled from the spec: ids of the pattern-matching form
    [{"type": component_id, "index": name}], the live key of the glossary and
    the store names of the viewer store contract (section 6). *)
#[export] Instance externals : Externals := {|
  _get_id := fun self index =>
    PDict [("type", PStr (component_id self)); ("index", PStr index)];
  LIVE_DATA_KEY := "live";
  VIEWER_DATA_STORE_SUFFIX := "data_pointer";
  VIEWER_UI_STATE_STORE_SUFFIX := "ui_state";
  VIEWER_LAYOUT_CONFIG_STORE_SUFFIX := "layout_config";
  uuid4 := fun n => "uuid-" +:+ str_of_int (Z.of_nat n);
  str_of_container := fun _ => "<container>";
|}.

Definition controller : LiveViewTabController :=
  {| component_id := "live-view-tab-controller" |}.

Definition initial (a : acquisition_state) : world acquisition_state unit :=
  {| acquirer := a; calls := []; logs := []; registry := ∅; uuid_count := 0 |}.

Definition stopped : acquisition_state :=
  {| status := "stopped"; error_detail := None; parameters := [] |}.
Definition running : acquisition_state :=
  {| status := "running"; error_detail := None; parameters := [] |}.
Definition failed : acquisition_state :=
  {| status := "error"; error_detail := Some "timeout"; parameters := [] |}.

End Reference.

(** ** More of the Python model *)

(** [del d[k]] for a key that is there (the entry found first goes). *)
Fixpoint dict_del {K V : Type} (eqb : K -> K -> bool) (k : K)
    (d : list (K * V)) : list (K * V) :=
  match d with
  | [] => []
  | (k', v) :: rest =>
      if eqb k' k then rest else (k', v) :: dict_del eqb k rest
  end.

(** No key of the items occurs twice, as in every dict. *)
Fixpoint unique_keys {K V : Type} (eqb : K -> K -> bool)
    (d : list (K * V)) : Prop :=
  match d with
  | [] => True
  | (k, _) :: rest => dict_get eqb k rest = None /\ unique_keys eqb rest
  end.

(** All components of a tree, in document order. *)
Fixpoint nodes (n : node) : list node :=
  n :: match n with
       | Text _ => []
       | Elem _ children _ => flat_map nodes children
       end.

(** ** dash_utils *)

Module dash_utils.

(** What [convert_to_dash_component] can raise: the builtin [TypeError] and
    [AttributeError], [KeyError] with the missing key, and its own
    [ValueError] with the element it does not know. *)
Inductive raised : Type :=
| Builtin (e : exn)
| KeyError (key : string)
| ValueError (elem : pyval).

(** What it returns: a value passed through, a list, a dict, a component of
    [html], [dbc] or [dcc] with its keyword arguments, or a plotly figure. *)
Inductive converted : Type :=
| Value (v : pyval)
| Items (l : list converted)
| Mapping (d : list (string * converted))
| Component (library cls : string) (kwargs : list (string * converted))
| Figure (kwargs : list (string * pyval)).

Inductive attempt (X : Type) : Type :=
| Done (x : X)
| Failed (e : raised).
Arguments Done {X} x.
Arguments Failed {X} e.

(** The libraries the function builds components with are not among the
    sources: [has_attribute library name] tells whether [getattr(library,
    name)] finds something, [instantiate library name kwargs] is the
    exception raised, if any, when what was found is called with the keyword
    arguments [kwargs], and [figure_error] the same for [go.Figure]. *)
Class DashLibraries := {
  has_attribute : string -> string -> bool;
  instantiate : string -> string -> list (string * converted) -> option raised;
  figure_error : list (string * pyval) -> option raised;
}.

Section Convert.
Context {Lib : DashLibraries}.

(** [[f(e) for e in l]]: the first failure ends the comprehension. *)
Fixpoint each {X Y : Type} (f : X -> attempt Y) (l : list X)
  : attempt (list Y) :=
  match l with
  | [] => Done []
  | e :: rest =>
      match f e with
      | Failed x => Failed x
      | Done c =>
          match each f rest with
          | Failed x => Failed x
          | Done cs => Done (c :: cs)
          end
      end
  end.

(** [{key: f(value) for key, value in items}]. *)
Fixpoint each_value {X Y : Type} (f : X -> attempt Y)
    (items : list (string * X)) : attempt (list (string * Y)) :=
  match items with
  | [] => Done []
  | (key, value) :: rest =>
      match f value with
      | Failed x => Failed x
      | Done c =>
          match each_value f rest with
          | Failed x => Failed x
          | Done cs => Done ((key, c) :: cs)
          end
      end
  end.

(** [f(items[key])] when [key in items], nothing otherwise. *)
Fixpoint entry {Y : Type} (f : pyval -> attempt Y) (key : string)
    (items : sdict) : attempt (option Y) :=
  match items with
  | [] => Done None
  | (k, value) :: rest =>
      if String.eqb k key then
        match f value with
        | Failed x => Failed x
        | Done c => Done (Some c)
        end
      else entry f key rest
  end.

(** [g(items["props"])] when the props are there and are a dict, nothing
    otherwise. *)
Fixpoint props_entry {Y : Type} (g : sdict -> attempt (option Y))
    (items : sdict) : attempt (option Y) :=
  match items with
  | [] => Done None
  | (k, value) :: rest =>
      if String.eqb k "props" then
        match value with
        | PDict props => g props
        | _ => Done None
        end
      else props_entry g rest
  end.


(** The call of [cls] with the keyword arguments [kwargs]. *)
Definition construct (library cls : string)
    (kwargs : list (string * converted)) : attempt converted :=
  match instantiate library cls kwargs with
  | Some e => Failed e
  | None => Done (Component library cls kwargs)
  end.

Definition untouched (props : sdict) : list (string * converted) :=
  map (fun kv => (fst kv, Value (snd kv))) props.

(** The branch of a dict with namespace [dash_html_components] or
    [dash_bootstrap_components], for the library [html] or [dbc].
    [children] is the converted ["children"] entry of the props when the
    props are a dict that has one. *)
Definition html_or_dbc (library : string) (elem : sdict)
    (children : attempt (option converted)) : attempt converted :=
  match sget "type" elem with
  | None => Failed (KeyError "type")
  | Some (PStr cls) =>
      if has_attribute library cls then
        match sget "props" elem with
        | None => Failed (KeyError "props")
        | Some (PDict props) =>
            match children with
            | Failed e => Failed e
            | Done None => construct library cls (untouched props)
            | Done (Some c) =>
                construct library cls
                  (untouched (dict_del String.eqb "children" props)
                     ++ [("children", c)])
            end
        | Some (PStr s) =>
            match String.index 0 "children" s with
            | Some _ => Failed (Builtin AttributeError)
            | None => Failed (Builtin TypeError)
            end
        | Some _ => Failed (Builtin TypeError)
        end
      else Failed (Builtin AttributeError)
  | Some _ => Failed (Builtin TypeError)
  end.

(** The rest of the dict branch: a [Graph], or an unknown element. *)
Definition graph_or_unknown (elem : sdict) : attempt converted :=
  match sget "type" elem with
  | None => Failed (KeyError "type")
  | Some type =>
      if eq_str type "Graph" then
        match sget "props" elem with
        | None => Failed (KeyError "props")
        | Some (PDict props) =>
            match sget "figure" props with
            | Some (PDict figure) =>
                match figure_error figure with
                | Some e => Failed e
                | None =>
                    construct "dcc" "Graph"
                      (map (fun kv =>
                              (fst kv,
                               if String.eqb (fst kv) "figure"
                               then Figure figure else Value (snd kv)))
                         props)
                end
            | _ => construct "dcc" "Graph" (untouched props)
            end
        | Some _ => Failed (Builtin AttributeError)
        end
      else Failed (ValueError (PDict elem))
  end.

(** The function also stores the converted children, and the figure, back
    into the props of the element it was given; what it returns does not
    depend on that, and the stored values are not followed here. *)
Fixpoint convert_to_dash_component (elem : pyval) : attempt converted :=
  match elem with
  | PList l =>
      match each convert_to_dash_component l with
      | Failed x => Failed x
      | Done cs => Done (Items cs)
      end
  | PDict d =>
      if negb (sin "namespace" d) then
        match each_value convert_to_dash_component d with
        | Failed x => Failed x
        | Done items => Done (Mapping items)
        end
      else
        let children :=
          props_entry (entry convert_to_dash_component "children") d in
        let namespace := default PNone (sget "namespace" d) in
        if eq_str namespace "dash_html_components" then
          html_or_dbc "html" d children
        else if eq_str namespace "dash_bootstrap_components" then
          html_or_dbc "dbc" d children
        else graph_or_unknown d
  | _ => Done (Value elem)
  end.

End Convert.

(** An element without a component description anywhere inside: no dict of
    it has a ["namespace"] entry. *)
Fixpoint plain (elem : pyval) : bool :=
  match elem with
  | PList l => forallb plain l
  | PDict d => negb (sin "namespace" d) && forallb (fun kv => plain (snd kv)) d
  | _ => true
  end.

(** The same data as a result of the conversion. *)
Fixpoint same_data (elem : pyval) : converted :=
  match elem with
  | PList l => Items (map same_data l)
  | PDict d => Mapping (map (fun kv => (fst kv, same_data (snd kv))) d)
  | _ => Value elem
  end.

End dash_utils.

(** ** An acquirer for trying snapshots *)

Module Probe.

(** An acquirer that reports the snapshot it is given and accepts every call
    without changing, to run the handlers on snapshots of any shape. *)
Record fixed := { shown : sdict }.

#[export] Instance acquirer_interface : DataAcquirer fixed := {|
  acquirer_component_id := fun _ => "probe";
  acquirer_bool := fun _ => true;
  get_dash_components := fun _ _ => [];
  get_components := fun _ => [];
  get_latest_data := shown;
  start_acquisition := fun a => (None, a);
  stop_acquisition := fun a => (None, a);
  update_parameters := fun _ a => (None, a);
|}.

Definition showing (snapshot : sdict) : world fixed unit :=
  {| acquirer := {| shown := snapshot |}; calls := []; logs := [];
     registry := ∅; uuid_count := 0 |}.

End Probe.

(** ** Libraries for trying conversions *)

Module Shelf.

(** A few classes of [html] and [dbc] whose constructors accept any keyword
    arguments, and a figure constructor that accepts any. *)
#[export] Instance libraries : dash_utils.DashLibraries := {|
  dash_utils.has_attribute := fun library cls =>
    (String.eqb library "html"
       && existsb (String.eqb cls) ["Div"; "P"; "H5"; "Hr"])
    || (String.eqb library "dbc"
          && existsb (String.eqb cls) ["Button"; "Badge"; "Row"; "Col"]);
  dash_utils.instantiate := fun _ _ _ => None;
  dash_utils.figure_error := fun _ => None;
|}.

End Shelf.

(** ** Registration of the callbacks *)

(** [Output], [Input] or [State]: the id of a component and one of its
    properties. *)
Record dependency := {
  target : pyval;
  property : string;
}.

(** What [app.callback] is given. *)
Record callback := {
  outputs : list dependency;
  inputs : list dependency;
  states : list dependency;
  prevent_initial_call : bool;
}.

(** The name under which the orchestrator lists its status alert, and the
    id [component._get_id(ALL)] of a component of the acquirer, are not among
    the sources. *)
Class Wiring := {
  _MAIN_STATUS_ALERT_ID_SUFFIX : string;
  _get_id_ALL : string -> pyval;
}.

Inductive registration_message : Type :=
| MsgRegisteringCallbacks (component_id : string)
| MsgStatusAlertNotFound (suffix : string).

Definition props_of (n : node) : list (string * pyval) :=
  match n with
  | Text _ => []
  | Elem _ _ props => props
  end.

Section Registration.
Context {A : Type} {Acq : DataAcquirer A} {Ext : Externals} {Wire : Wiring}.

(** The callback declared by [_register_acquisition_control_callback], and
    what registering it logs. *)
Definition _register_acquisition_control_callback
    (self : LiveViewTabController) (orchestrator_stores : sdict)
  : callback * list (level * registration_message) :=
  let main_status_alert_id :=
    default PNone (sget _MAIN_STATUS_ALERT_ID_SUFFIX orchestrator_stores) in
  ({| outputs :=
        [ {| target := _get_id self _TOGGLE_ACQ_BUTTON_ID_SUFFIX;
             property := "children" |};
          {| target := _get_id self _TOGGLE_ACQ_BUTTON_ID_SUFFIX;
             property := "color" |};
          {| target := _get_id self _ACQUIRER_STATUS_INDICATOR_ID_SUFFIX;
             property := "children" |};
          {| target := _get_id self _ACQUIRER_STATUS_INDICATOR_ID_SUFFIX;
             property := "color" |} ];
      inputs :=
        [ {| target := _get_id self _TOGGLE_ACQ_BUTTON_ID_SUFFIX;
             property := "n_clicks" |};
          {| target := main_status_alert_id; property := "children" |} ];
      states := [];
      prevent_initial_call := true |},
   if truthy main_status_alert_id then []
   else [(LvlError, MsgStatusAlertNotFound _MAIN_STATUS_ALERT_ID_SUFFIX)]).

(** The callback declared by [_register_parameter_update_callback] for the
    acquirer as it is at registration. *)
Definition _register_parameter_update_callback
    (self : LiveViewTabController) (a : A) : callback :=
  let all_acquirer_components := get_components a in
  let dynamic_inputs :=
    map (fun component =>
           {| target := _get_id_ALL component; property := "value" |})
      all_acquirer_components in
  let dynamic_states_ids :=
    map (fun component =>
           {| target := _get_id_ALL component; property := "id" |})
      all_acquirer_components in
  {| outputs :=
       [ {| target := _get_id self _DUMMY_OUTPUT_ACQUIRER_UPDATE_SUFFIX;
            property := "children" |} ];
     inputs := dynamic_inputs;
     states := dynamic_states_ids;
     prevent_initial_call := true |}.

(** [register_callbacks]: the two callbacks, in the order they are
    registered, and the log of the registration. *)
Definition register_callbacks (self : LiveViewTabController) (a : A)
    (orchestrator_stores shared_viewer_store_ids : sdict)
  : list callback * list (level * registration_message) :=
  let '(acquisition_control, logged) :=
    _register_acquisition_control_callback self orchestrator_stores in
  ([acquisition_control; _register_parameter_update_callback self a],
   (LvlInfo, MsgRegisteringCallbacks (component_id self)) :: logged).

End Registration.

(** ** Wiring for trying the registration *)

Module Wired.

#[export] Instance wiring : Wiring := {|
  _MAIN_STATUS_ALERT_ID_SUFFIX := "main-status-alert";
  _get_id_ALL := fun component =>
    PDict [("type", PStr component); ("index", PList [PStr "ALL"])];
|}.

(** An acquirer of the reference kind with two components. *)
Definition two_axes : Reference.acquisition_state :=
  {| Reference.status := "stopped"; Reference.error_detail := None;
     Reference.parameters := [("x-axis", []); ("y-axis", [])] |}.

End Wired.

(** * Properties *)

(** ** Strings and dictionaries *)

Lemma str_take_length (n : nat) (s : string) :
  (String.length (str_take n s) <= n)%nat.
Proof.
  revert s; induction n as [|n IH]; intros [|c s]; simpl; try lia.
  specialize (IH s); lia.
Qed.

Lemma prefix_str_take (p s : string) (n : nat) :
  (String.length p <= n)%nat -> String.prefix p (str_take n (p +:+ s)) = true.
Proof.
  revert n; induction p as [|c p IH]; intros n Hlen.
  - destruct (str_take n ("" +:+ s)); reflexivity.
  - destruct n as [|n]; simpl in Hlen; [lia|]. simpl.
    destruct (ascii_dec c c) as [_|Hne]; [|congruence].
    apply IH. lia.
Qed.

Section DictFacts.
Context {K V : Type} (eqb : K -> K -> bool) (key : K -> Prop).
Hypothesis eqb_sym : forall k1 k2, key k1 -> key k2 -> eqb k1 k2 = eqb k2 k1.
Hypothesis eqb_trans : forall k1 k2 k3, key k1 -> key k2 -> key k3 ->
  eqb k1 k2 = true -> eqb k2 k3 = true -> eqb k1 k3 = true.

Lemma dict_set_keys (k : K) (v : V) (d : list (K * V)) :
  key k -> Forall (fun kv => key (fst kv)) d ->
  Forall (fun kv => key (fst kv)) (dict_set eqb k v d).
Proof.
  intros Hk; induction 1 as [|[k' v'] d Hk' Hd IH]; simpl.
  - repeat constructor; assumption.
  - destruct (eqb k' k); constructor; auto.
Qed.

Lemma dict_get_set (k k' : K) (v : V) (d : list (K * V)) :
  key k -> key k' -> Forall (fun kv => key (fst kv)) d ->
  dict_get eqb k (dict_set eqb k' v d) =
  if eqb k' k then Some v else dict_get eqb k d.
Proof.
  intros Hk Hk'; induction 1 as [|[k2 v2] d Hk2 Hd IH]; simpl in *.
  - reflexivity.
  - destruct (eqb k2 k') eqn:E2; simpl.
    + destruct (eqb k' k) eqn:E1.
      * rewrite (eqb_trans k2 k' k) by assumption. reflexivity.
      * destruct (eqb k2 k) eqn:E3; [|reflexivity].
        rewrite eqb_sym in E2 by assumption.
        rewrite (eqb_trans k' k2 k) in E1 by assumption. discriminate.
    + destruct (eqb k2 k) eqn:E3; [|exact IH].
      destruct (eqb k' k) eqn:E1; [|reflexivity].
      rewrite (eqb_sym k' k) in E1 by assumption.
      rewrite (eqb_trans k2 k k') in E2 by assumption. discriminate.
Qed.

End DictFacts.

Lemma string_eqb_trans (k1 k2 k3 : string) :
  String.eqb k1 k2 = true -> String.eqb k2 k3 = true ->
  String.eqb k1 k3 = true.
Proof.
  intros H1 H2. apply String.eqb_eq in H1, H2. subst. apply String.eqb_refl.
Qed.

Lemma string_dict_get_set {V : Type} (k k' : string) (v : V)
    (d : list (string * V)) :
  dict_get String.eqb k (dict_set String.eqb k' v d) =
  if String.eqb k' k then Some v else dict_get String.eqb k d.
Proof.
  apply (dict_get_set String.eqb (fun _ => True)
           (fun k1 k2 _ _ => String.eqb_sym k1 k2)
           (fun k1 k2 k3 _ _ _ => string_eqb_trans k1 k2 k3)); auto.
  induction d; constructor; auto.
Qed.

Lemma sget_set (k k' : string) (v : pyval) (d : sdict) :
  sget k (dict_set String.eqb k' v d) =
  if String.eqb k' k then Some v else sget k d.
Proof. apply string_dict_get_set. Qed.

(** Items under other keys leave a key's entry as it was. *)
Lemma string_fold_other {V : Type} (items acc : list (string * V)) (k : string) :
  ~ In k (map fst items) ->
  dict_get String.eqb k
    (fold_left (fun d kv => dict_set String.eqb (fst kv) (snd kv) d) items acc)
  = dict_get String.eqb k acc.
Proof.
  revert acc; induction items as [|[k0 v0] items IH]; intros acc Hk; simpl in *.
  - reflexivity.
  - rewrite IH by tauto. rewrite string_dict_get_set.
    destruct (String.eqb_spec k0 k); [tauto | reflexivity].
Qed.

(** Items with pairwise different keys are all found under their keys. *)
Lemma string_fold_item {V : Type} (items acc : list (string * V))
    (k : string) (v : V) :
  NoDup (map fst items) -> In (k, v) items ->
  dict_get String.eqb k
    (fold_left (fun d kv => dict_set String.eqb (fst kv) (snd kv) d) items acc)
  = Some v.
Proof.
  revert acc; induction items as [|[k0 v0] items IH]; intros acc Hnd Hin;
    simpl in *; [tauto|].
  apply NoDup_cons in Hnd as [Hk0 Hnd].
  destruct Hin as [[= -> ->]|Hin].
  - rewrite string_fold_other by (rewrite <- list_elem_of_In; exact Hk0).
    rewrite string_dict_get_set, String.eqb_refl. reflexivity.
  - apply IH; assumption.
Qed.

(** ** The data registry *)

Section RegistryFacts.
Context {Payload : Type}.
Implicit Types (r : gmap string (Payload * Z)) (ws : list (string * Payload)).

Lemma write_all_app ws1 ws2 r :
  data_registry.write_all (ws1 ++ ws2)%list r =
  data_registry.write_all ws2 (data_registry.write_all ws1 r).
Proof. unfold data_registry.write_all. apply fold_left_app. Qed.

Lemma write_all_snoc ws key (payload : Payload) r :
  data_registry.write_all (ws ++ [(key, payload)])%list r =
  snd (data_registry.write key payload (data_registry.write_all ws r)).
Proof. unfold data_registry.write_all. rewrite fold_left_app. reflexivity. Qed.

Lemma write_all_elsewhere ws key r :
  Forall (fun kp => fst kp <> key) ws ->
  data_registry.write_all ws r !! key = r !! key.
Proof.
  induction ws as [|[k p] ws IH] using rev_ind; intros Hws; [reflexivity|].
  apply Forall_app in Hws as [Hws Hlast].
  apply Forall_cons in Hlast as [Hk _]. simpl in Hk.
  rewrite write_all_snoc. simpl.
  rewrite lookup_insert_ne by exact Hk. auto.
Qed.

(** C9.  Starting from the empty registry, a read of a key returns the pair
    [(P, v)] exactly when the last write to that key stored [P] and returned
    [v]: a read after [write(key, P)] with no write to the key in between
    returns [P] with the version of that write, and no read ever pairs a
    payload with the version of another write. *)
Theorem read_returns_last_write ws key (P : Payload) (v : Z) :
  data_registry.read key (data_registry.write_all ws ∅) = Some (P, v) <->
  exists before after : list (string * Payload),
    ws = (before ++ (key, P) :: after)%list /\
    Forall (fun kp => fst kp <> key) after /\
    v = fst (data_registry.write key P (data_registry.write_all before ∅)).
Proof.
  unfold data_registry.read. split.
  - induction ws as [|[k p] ws IH] using rev_ind.
    + simpl. rewrite lookup_empty. discriminate.
    + rewrite write_all_snoc. simpl.
      destruct (decide (k = key)) as [->|Hne].
      * rewrite lookup_insert_eq. intros [= <- <-].
        exists ws, []. repeat split; auto.
      * rewrite lookup_insert_ne by exact Hne. intros Hread.
        destruct (IH Hread) as (before & after & -> & Hafter & ->).
        exists before, (after ++ [(k, p)])%list. repeat split.
        -- rewrite <- app_assoc. reflexivity.
        -- apply Forall_app; split; [exact Hafter|].
           constructor; [exact Hne | constructor].
  - intros (before & after & -> & Hafter & ->).
    change (before ++ (key, P) :: after)%list
      with (before ++ [(key, P)] ++ after)%list.
    rewrite app_assoc, write_all_app.
    rewrite write_all_elsewhere by exact Hafter.
    rewrite write_all_snoc. simpl. apply lookup_insert_eq.
Qed.

End RegistryFacts.

(** ** The toggle/status handler *)

Section ToggleFacts.
Context {A Payload : Type} {Acq : DataAcquirer A} {Ext : Externals}.
Implicit Types (self : LiveViewTabController) (w : world A Payload).

Ltac run_handler :=
  unfold handle_acquisition_control_and_status_update, call_get_latest_data,
    call_upper, acquirer_method, acquirer_attr, log, raise,
    mbind, mret, M_bind, M_ret;
  simpl.

Ltac by_status :=
  match goal with
  | |- context [default (PStr "unknown") ?found] =>
      destruct (default (PStr "unknown") found); simpl; try reflexivity
  end;
  repeat match goal with
         | |- context [if ?b then _ else _] => destruct b; simpl
         end;
  reflexivity.

Lemma reported_status_upper (a : A) (cs : string) :
  reported_status a = Some cs ->
  exists s, default (PStr "unknown") (sget "status" (get_latest_data a)) = PStr s
            /\ cs = upper s.
Proof.
  unfold reported_status.
  destruct (default (PStr "unknown") (sget "status" (get_latest_data a)));
    try discriminate.
  intros [= <-]. eauto.
Qed.

(** C1.  On a button click the handler stops a RUNNING acquirer and starts any
    other: it reads the snapshot, calls [stop_acquisition] (resp.
    [start_acquisition]) once, and, that call returning, answers "Start
    Acquisition"/success with badge STOPPED/secondary (resp. "Stop
    Acquisition"/danger with badge RUNNING/success).  An exception of the
    acquirer's own method propagates. *)
Theorem click_stops_running_starts_other
    self (toggle_clicks status_alert triggered_id : pyval) w (cs : string) :
  is_button_click self triggered_id = true ->
  reported_status (acquirer w) = Some cs ->
  let r := handle_acquisition_control_and_status_update
             self toggle_clicks status_alert triggered_id w in
  (cs = "RUNNING" ->
     calls (snd r) = (calls w ++ [CallGetLatestData; CallStopAcquisition])%list
     /\ acquirer (snd r) = snd (stop_acquisition (acquirer w))
     /\ fst r =
        match fst (stop_acquisition (acquirer w)) with
        | None => Returned ("Start Acquisition", "success", "STOPPED", "secondary")
        | Some e => Raised e
        end)
  /\
  (cs <> "RUNNING" ->
     calls (snd r) = (calls w ++ [CallGetLatestData; CallStartAcquisition])%list
     /\ acquirer (snd r) = snd (start_acquisition (acquirer w))
     /\ fst r =
        match fst (start_acquisition (acquirer w)) with
        | None => Returned ("Stop Acquisition", "danger", "RUNNING", "success")
        | Some e => Raised e
        end).
Proof.
  intros Hclick Hstatus r.
  destruct (reported_status_upper _ _ Hstatus) as (s & Hs & ->).
  subst r. run_handler. rewrite Hclick, Hs. simpl.
  split; intros Hcs.
  - rewrite Hcs. simpl.
    destruct (stop_acquisition (acquirer w)) as [[e|] a']; simpl;
      rewrite <- app_assoc; auto.
  - apply String.eqb_neq in Hcs. rewrite Hcs. simpl.
    destruct (start_acquisition (acquirer w)) as [[e|] a']; simpl;
      rewrite <- app_assoc; auto.
Qed.

(** C2.  When the trigger is not the button click the handler only reads the
    snapshot: [get_latest_data] is the one call it makes on the acquirer, the
    acquirer and the registry are left as they were, and what it answers is
    determined by the snapshot alone. *)
Theorem reflection_is_read_only
    self (toggle_clicks status_alert triggered_id : pyval) w :
  is_button_click self triggered_id = false ->
  let r := handle_acquisition_control_and_status_update
             self toggle_clicks status_alert triggered_id w in
  calls (snd r) = (calls w ++ [CallGetLatestData])%list
  /\ acquirer (snd r) = acquirer w
  /\ registry (snd r) = registry w
  /\ forall (toggle_clicks' status_alert' triggered_id' : pyval) w',
       is_button_click self triggered_id' = false ->
       get_latest_data (acquirer w') = get_latest_data (acquirer w) ->
       fst (handle_acquisition_control_and_status_update
              self toggle_clicks' status_alert' triggered_id' w') = fst r.
Proof.
  intros Hclick r. subst r. run_handler. rewrite Hclick.
  repeat split; try by_status.
  intros tc' sa' trig' w' Hclick' Hsnap. rewrite Hclick', Hsnap. by_status.
Qed.

(** C3.  When the trigger is not the button click and the status is ERROR, the
    badge text is "ERROR", followed by ": " and the text of the error detail
    when the snapshot carries one, cut to its first 100 characters; the badge
    colour is danger and the button is back to "Start Acquisition"/success. *)
Theorem error_badge_is_cut
    self (toggle_clicks status_alert triggered_id : pyval) w :
  is_button_click self triggered_id = false ->
  reported_status (acquirer w) = Some "ERROR" ->
  let r := handle_acquisition_control_and_status_update
             self toggle_clicks status_alert triggered_id w in
  let detail := reported_error (acquirer w) in
  exists status_text : string,
    fst r = Returned ("Start Acquisition", "success", status_text, "danger")
    /\ status_text =
       str_take 100
         ("ERROR" +:+ (if truthy detail then ": " +:+ py_str detail else ""))
    /\ String.prefix "ERROR" status_text = true
    /\ (String.length status_text <= 100)%nat
    /\ (truthy detail = true -> String.prefix "ERROR: " status_text = true)
    /\ (truthy detail = false -> status_text = "ERROR").
Proof.
  intros Hclick Hstatus r detail.
  destruct (reported_status_upper _ _ Hstatus) as (s & Hs & Hup).
  exists (str_take 100 (error_text detail)).
  split; [|split; [reflexivity|]].
  - subst r detail. run_handler. rewrite Hclick, Hs. simpl. rewrite <- Hup.
    reflexivity.
  - split; [|split; [apply str_take_length|]].
    + unfold error_text. apply prefix_str_take. simpl; lia.
    + unfold error_text. split; intros ->.
      * change ("ERROR" +:+ ": " +:+ py_str detail)
          with ("ERROR: " +:+ py_str detail).
        apply prefix_str_take. simpl; lia.
      * reflexivity.
Qed.

End ToggleFacts.

(** ** Layout and tab switching *)

Section TabFacts.
Context {A Payload : Type} {Acq : DataAcquirer A} {Ext : Externals}.
Implicit Types (self : LiveViewTabController) (w : world A Payload).

(** C10.  Whatever the acquirer's state, the tree [get_layout] returns has as
    its toggle button a button reading "Start Acquisition" in colour success,
    and as its status badge a badge reading "STOPPED" in colour secondary;
    rendering the layout calls nothing on the acquirer. *)
Theorem layout_shows_stopped_controls self w :
  exists (tree : node) (button_props badge_props : list (string * pyval)),
    fst (get_layout self w) = Returned tree
    /\ find_class "dbc.Button" tree =
       Some (Elem "dbc.Button" [Text "Start Acquisition"] button_props)
    /\ sget "id" button_props = Some (_get_id self _TOGGLE_ACQ_BUTTON_ID_SUFFIX)
    /\ sget "color" button_props = Some (PStr "success")
    /\ find_class "dbc.Badge" tree =
       Some (Elem "dbc.Badge" [Text "STOPPED"] badge_props)
    /\ sget "id" badge_props =
       Some (_get_id self _ACQUIRER_STATUS_INDICATOR_ID_SUFFIX)
    /\ sget "color" badge_props = Some (PStr "secondary")
    /\ calls (snd (get_layout self w)) = calls w
    /\ acquirer (snd (get_layout self w)) = acquirer w.
Proof.
  eexists _, _, _.
  split; [reflexivity|].
  split; [reflexivity|].
  split; [reflexivity|].
  split; [reflexivity|].
  split; [reflexivity|].
  repeat split; reflexivity.
Qed.

Lemma on_tab_activated_updates self w :
  exists version : pyval,
    fst (on_tab_activated self w) =
      Returned
        (dict_display String.eqb
           [ (VIEWER_DATA_STORE_SUFFIX,
              PDict [("key", PStr LIVE_DATA_KEY); ("version", version)]);
             (VIEWER_UI_STATE_STORE_SUFFIX, PDict []);
             (VIEWER_LAYOUT_CONFIG_STORE_SUFFIX, PDict []) ])
    /\ version =
       match data_registry.get_current_version LIVE_DATA_KEY (registry w) with
       | Some v => PInt v
       | None => PStr (uuid4 (uuid_count w))
       end
    /\ uuid_count (snd (on_tab_activated self w)) =
       match data_registry.get_current_version LIVE_DATA_KEY (registry w) with
       | Some _ => uuid_count w
       | None => S (uuid_count w)
       end
    /\ acquirer (snd (on_tab_activated self w)) = acquirer w
    /\ calls (snd (on_tab_activated self w)) = calls w
    /\ registry (snd (on_tab_activated self w)) = registry w.
Proof.
  unfold on_tab_activated, registry_current_version, fresh_uuid, log,
    mbind, mret, M_bind, M_ret. simpl.
  destruct (data_registry.get_current_version LIVE_DATA_KEY (registry w));
    simpl; eexists; repeat split; reflexivity.
Qed.

Lemma viewer_stores_lookup (pointer : pyval) :
  VIEWER_DATA_STORE_SUFFIX <> VIEWER_UI_STATE_STORE_SUFFIX ->
  VIEWER_DATA_STORE_SUFFIX <> VIEWER_LAYOUT_CONFIG_STORE_SUFFIX ->
  let updates :=
    dict_display String.eqb
      [ (VIEWER_DATA_STORE_SUFFIX, pointer);
        (VIEWER_UI_STATE_STORE_SUFFIX, PDict []);
        (VIEWER_LAYOUT_CONFIG_STORE_SUFFIX, PDict []) ] in
  sget VIEWER_DATA_STORE_SUFFIX updates = Some pointer
  /\ sget VIEWER_UI_STATE_STORE_SUFFIX updates = Some (PDict [])
  /\ sget VIEWER_LAYOUT_CONFIG_STORE_SUFFIX updates = Some (PDict []).
Proof.
  intros Hui Hlayout updates. subst updates.
  unfold dict_display. cbn [fold_left fst snd].
  rewrite !sget_set. unfold sget. simpl.
  repeat match goal with
         | |- context [String.eqb ?a ?b] => destruct (String.eqb_spec a b)
         end;
    repeat split; congruence.
Qed.

(** C6.  Every call of [on_tab_activated] returns store updates in which the
    viewer's data store points at the live-data key together with a version
    (the registry's current one for that key, a placeholder when there is
    none) and in which the viewer's UI state and layout configuration are
    empty mappings.  The three store names are taken to be different from
    the data store's. *)
Theorem activation_points_viewer_at_live_data self w :
  VIEWER_DATA_STORE_SUFFIX <> VIEWER_UI_STATE_STORE_SUFFIX ->
  VIEWER_DATA_STORE_SUFFIX <> VIEWER_LAYOUT_CONFIG_STORE_SUFFIX ->
  exists (updates : sdict) (version : pyval),
    fst (on_tab_activated self w) = Returned updates
    /\ sget VIEWER_DATA_STORE_SUFFIX updates =
       Some (PDict [("key", PStr LIVE_DATA_KEY); ("version", version)])
    /\ (forall v, data_registry.get_current_version LIVE_DATA_KEY (registry w)
                  = Some v -> version = PInt v)
    /\ sget VIEWER_UI_STATE_STORE_SUFFIX updates = Some (PDict [])
    /\ sget VIEWER_LAYOUT_CONFIG_STORE_SUFFIX updates = Some (PDict []).
Proof.
  intros Hui Hlayout.
  destruct (on_tab_activated_updates self w) as (version & Hret & Hver & _).
  destruct (viewer_stores_lookup
              (PDict [("key", PStr LIVE_DATA_KEY); ("version", version)])
              Hui Hlayout) as (Hd & Hu & Hl).
  eexists _, version. split; [exact Hret|].
  repeat split; try assumption.
  intros v Hv. rewrite Hv in Hver. exact Hver.
Qed.

(** C7.  [on_tab_deactivated] returns without calling anything on the
    acquirer: the acquirer, the calls made on it and the registry are as
    before. *)
Theorem deactivation_leaves_acquirer_alone self w :
  fst (on_tab_deactivated self w) = Returned tt
  /\ acquirer (snd (on_tab_deactivated self w)) = acquirer w
  /\ calls (snd (on_tab_deactivated self w)) = calls w
  /\ registry (snd (on_tab_deactivated self w)) = registry w.
Proof. repeat split. Qed.

(** C8.  When the live-data key was never written, [on_tab_activated] does
    not fail: it draws a new UUID, puts its text in the viewer's data pointer
    as the version, and returns the whole mapping of store updates. *)
Theorem activation_without_live_data_uses_placeholder self w :
  VIEWER_DATA_STORE_SUFFIX <> VIEWER_UI_STATE_STORE_SUFFIX ->
  VIEWER_DATA_STORE_SUFFIX <> VIEWER_LAYOUT_CONFIG_STORE_SUFFIX ->
  data_registry.get_current_version LIVE_DATA_KEY (registry w) = None ->
  exists updates : sdict,
    fst (on_tab_activated self w) = Returned updates
    /\ sget VIEWER_DATA_STORE_SUFFIX updates =
       Some (PDict [ ("key", PStr LIVE_DATA_KEY);
                     ("version", PStr (uuid4 (uuid_count w))) ])
    /\ sget VIEWER_UI_STATE_STORE_SUFFIX updates = Some (PDict [])
    /\ sget VIEWER_LAYOUT_CONFIG_STORE_SUFFIX updates = Some (PDict [])
    /\ uuid_count (snd (on_tab_activated self w)) = S (uuid_count w).
Proof.
  intros Hui Hlayout Hmiss.
  destruct (on_tab_activated_updates self w) as (version & Hret & Hver & Hcount & _).
  rewrite Hmiss in Hver, Hcount. subst version.
  destruct (viewer_stores_lookup
              (PDict [ ("key", PStr LIVE_DATA_KEY);
                       ("version", PStr (uuid4 (uuid_count w))) ])
              Hui Hlayout) as (Hd & Hu & Hl).
  eexists. split; [exact Hret|]. repeat split; assumption.
Qed.

End TabFacts.

(** ** Parameter parsing *)

Lemma key_eqb_refl (k : pyval) : hashable k = true -> key_eqb k k = true.
Proof.
  destruct k as [|b|z|s|l|d]; simpl; intros Hk; try discriminate; auto.
  - destruct b; reflexivity.
  - apply Z.eqb_refl.
  - apply String.eqb_refl.
Qed.

Lemma key_eqb_sym (k1 k2 : pyval) : key_eqb k1 k2 = key_eqb k2 k1.
Proof.
  destruct k1 as [|a|a|a|a|a], k2 as [|b|b|b|b|b]; simpl; auto.
  - destruct a, b; reflexivity.
  - apply Z.eqb_sym.
  - apply String.eqb_sym.
Qed.

Lemma key_eqb_trans (k1 k2 k3 : pyval) :
  key_eqb k1 k2 = true -> key_eqb k2 k3 = true -> key_eqb k1 k3 = true.
Proof.
  destruct k1 as [|a|a|a|a|a], k2 as [|b|b|b|b|b], k3 as [|c|c|c|c|c];
    simpl; try discriminate; auto;
    rewrite ?Z.eqb_eq, ?String.eqb_eq, ?Bool.eqb_true_iff;
    try (intros; subst; reflexivity);
    try (intros; congruence);
    try (destruct a; lia); try (destruct b; lia); try (destruct c; lia);
    destruct a, c; lia.
Qed.

Lemma params_get_set (k k' v : pyval) (d : params) :
  hashable k = true -> hashable k' = true -> hashable_keys d ->
  dict_get key_eqb k (dict_set key_eqb k' v d) =
  if key_eqb k' k then Some v else dict_get key_eqb k d.
Proof.
  apply (dict_get_set key_eqb (fun k => hashable k = true)
           (fun k1 k2 _ _ => key_eqb_sym k1 k2)
           (fun k1 k2 k3 _ _ _ => key_eqb_trans k1 k2 k3)).
Qed.

Lemma params_set_keys (k v : pyval) (d : params) :
  hashable k = true -> hashable_keys d ->
  hashable_keys (dict_set key_eqb k v d).
Proof. apply (dict_set_keys key_eqb (fun k => hashable k = true)). Qed.

Lemma named_values_nil (ids : list pyval) : named_values ids [] = [].
Proof. destruct ids; reflexivity. Qed.

Lemma tail_drop (idx : nat) (values : list pyval) :
  tail (drop idx values) = drop (S idx) values.
Proof.
  revert idx; induction values as [|v values IH]; intros [|idx]; simpl; auto.
Qed.

(** Items set one after the other: the last item of a name decides. *)
Lemma fold_set_last (before after : params) (name v : pyval) (acc : params) :
  hashable_keys before -> hashable name = true -> hashable_keys after ->
  hashable_keys acc ->
  Forall (fun kv => key_eqb (fst kv) name = false) after ->
  dict_get key_eqb name
    (fold_left (fun d kv => dict_set key_eqb (fst kv) (snd kv) d)
       (before ++ (name, v) :: after)%list acc) = Some v.
Proof.
  intros Hb Hn Ha Hacc Hafter.
  rewrite fold_left_app. simpl.
  set (mid := dict_set key_eqb name v _).
  assert (Hmid : hashable_keys mid /\ dict_get key_eqb name mid = Some v).
  { subst mid. split.
    - apply params_set_keys; [exact Hn|].
      clear Hafter Ha. revert acc Hacc.
      induction Hb as [|[k x] before Hk Hb IH]; intros acc Hacc; simpl; auto.
      apply IH. apply params_set_keys; assumption.
    - assert (Hfold : hashable_keys
                (fold_left (fun d kv => dict_set key_eqb (fst kv) (snd kv) d)
                   before acc)).
      { clear Hafter Ha. revert acc Hacc.
        induction Hb as [|[k x] before Hk Hb IH]; intros acc Hacc; simpl; auto.
        apply IH. apply params_set_keys; assumption. }
      rewrite params_get_set by assumption.
      rewrite key_eqb_refl by exact Hn. reflexivity. }
  clearbody mid. destruct Hmid as [Hmid Hget]. clear Hb Hacc.
  revert mid Hmid Hget.
  induction after as [|[k x] after IH]; intros mid Hmid Hget; simpl; auto.
  apply Forall_cons in Ha as [Hk Ha]. apply Forall_cons in Hafter as [Hkn Hafter].
  simpl in Hk, Hkn.
  apply IH; auto.
  - apply params_set_keys; assumption.
  - rewrite params_get_set by assumption. rewrite Hkn. exact Hget.
Qed.

(** Whatever a name maps to was set by an item of that name, or was there
    before. *)
Lemma fold_set_origin (items : params) (name v : pyval) (acc : params) :
  hashable_keys items -> hashable name = true -> hashable_keys acc ->
  dict_get key_eqb name
    (fold_left (fun d kv => dict_set key_eqb (fst kv) (snd kv) d) items acc)
    = Some v ->
  (exists name', In (name', v) items /\ key_eqb name' name = true)
  \/ dict_get key_eqb name acc = Some v.
Proof.
  intros Hitems Hn. revert acc.
  induction Hitems as [|[k x] items Hk Hitems IH]; intros acc Hacc; simpl; auto.
  intros Hget. simpl in Hk.
  destruct (IH _ (params_set_keys k x acc Hk Hacc) Hget) as [(n' & Hin & Heq)|Hacc'].
  - left. exists n'. auto.
  - rewrite params_get_set in Hacc' by assumption.
    destruct (key_eqb k name) eqn:Ek; auto.
    injection Hacc' as <-. left. exists k. auto.
Qed.

(** The pair of a position that has a value and a named id, among the pairs
    of the batch. *)
Lemma named_values_split (ids values : list pyval) (idx : nat)
    (param_id name v : pyval) :
  ids !! idx = Some param_id -> index_of param_id = Some name ->
  values !! idx = Some v ->
  named_values ids values =
    (named_values (take idx ids) (take idx values)
       ++ (name, v) :: named_values (drop (S idx) ids) (drop (S idx) values))%list.
Proof.
  revert values idx.
  induction ids as [|i ids IH]; intros [|x values] [|idx]; simpl;
    try discriminate.
  - intros [= ->] Hname [= ->]. rewrite Hname. reflexivity.
  - intros Hi Hname Hv. rewrite (IH _ _ Hi Hname Hv).
    destruct (index_of i); reflexivity.
Qed.

(** Every pair of the batch sits at some position. *)
Lemma named_values_position (ids values : list pyval) (name v : pyval) :
  In (name, v) (named_values ids values) ->
  exists (idx : nat) (param_id : pyval),
    ids !! idx = Some param_id /\ index_of param_id = Some name
    /\ values !! idx = Some v.
Proof.
  revert values.
  induction ids as [|i ids IH]; intros [|x values]; simpl; try tauto.
  destruct (index_of i) eqn:Ei.
  - intros [[= <- <-]|Hin].
    + exists 0%nat, i. auto.
    + destruct (IH _ Hin) as (idx & pid & H1 & H2 & H3).
      exists (S idx), pid. auto.
  - intros Hin. destruct (IH _ Hin) as (idx & pid & H1 & H2 & H3).
    exists (S idx), pid. auto.
Qed.

Section ParseFacts.
Context {A Payload : Type} {Acq : DataAcquirer A} {Ext : Externals}.
Implicit Types (w : world A Payload).

Lemma with_logs_nil w : with_logs [] w = w.
Proof. destruct w. unfold with_logs. simpl. rewrite app_nil_r. reflexivity. Qed.

Lemma with_logs_app (l1 l2 : list (level * message)) w :
  with_logs l2 (with_logs l1 w) = with_logs (l1 ++ l2) w.
Proof. unfold with_logs. simpl. rewrite app_assoc. reflexivity. Qed.

(** The loop computes the dict of the named values and logs the skipped ids,
    provided every name can be a dict key. *)
Lemma parse_loop_run (component_id : string) (values : list pyval)
    (ids : list pyval) (idx : nat) (acc : params) w :
  hashable_keys (named_values ids (drop idx values)) ->
  parse_loop (A:=A) (Payload:=Payload) component_id values idx ids acc w =
    (Returned
       (fold_left (fun d kv => dict_set key_eqb (fst kv) (snd kv) d)
          (named_values ids (drop idx values)) acc),
     with_logs (skipped component_id ids (drop idx values)) w).
Proof.
  revert idx acc w.
  induction ids as [|param_id ids IH]; intros idx acc w Hkeys.
  - simpl. rewrite with_logs_nil. reflexivity.
  - cbn [parse_loop skipped].
    destruct (Nat.ltb_spec idx (length values)) as [Hlt|Hge].
    + destruct (lookup_lt_is_Some_2 values idx Hlt) as [v Hv].
      rewrite (drop_S _ _ _ Hv) in Hkeys |- *. cbn [named_values tail] in Hkeys |- *.
      rewrite Hv.
      destruct (index_of param_id) as [name|] eqn:Hname.
      * apply Forall_cons in Hkeys as [Hname_ok Hkeys]. simpl in Hname_ok.
        unfold setitem, mbind, mret, M_bind, M_ret. rewrite Hname_ok.
        rewrite IH by exact Hkeys. reflexivity.
      * unfold log, mbind, M_bind.
        rewrite IH by exact Hkeys. rewrite <- with_logs_app. reflexivity.
    + rewrite (drop_ge values idx) in Hkeys |- * by lia.
      rewrite named_values_nil. cbn [tail fold_left].
      assert (Hrest : drop (S idx) values = []) by (apply drop_ge; lia).
      specialize (IH (S idx) acc). rewrite Hrest, named_values_nil in IH.
      destruct (index_of param_id) as [name|] eqn:Hname;
        unfold log, mbind, M_bind;
        rewrite IH by constructor; rewrite <- with_logs_app; reflexivity.
Qed.

Lemma parse_run (component_id : string) (values ids : list pyval) w :
  hashable_keys (named_values ids values) ->
  _parse_component_parameters (A:=A) (Payload:=Payload)
    component_id values ids w =
    (Returned (parsed_params values ids),
     with_logs (match values with
                | [] => []
                | _ => skipped component_id ids values
                end) w).
Proof.
  intros Hkeys. unfold _parse_component_parameters, parsed_params, dict_display.
  destruct values as [|v values].
  - rewrite named_values_nil, with_logs_nil. reflexivity.
  - destruct ids as [|i ids].
    + rewrite with_logs_nil. reflexivity.
    + apply (parse_loop_run component_id (v :: values) (i :: ids) 0 []).
      exact Hkeys.
Qed.

Lemma skipped_unexpected (component_id : string) (ids values : list pyval)
    (idx : nat) (param_id : pyval) :
  ids !! idx = Some param_id -> index_of param_id = None ->
  In (LvlWarning, MsgUnexpectedIdFormat param_id component_id)
     (skipped component_id ids values).
Proof.
  revert idx values.
  induction ids as [|i ids IH]; intros [|idx] values; simpl; try discriminate.
  - intros [= ->] ->. left. reflexivity.
  - intros Hi Hnone. apply in_or_app. right. eapply IH; eassumption.
Qed.

(** C4, as the code has it.  For a batch whose parameter names can be dict
    keys, [_parse_component_parameters] raises nothing and touches nothing but
    the log; each entry whose id is not a dict with an ["index"] entry is
    logged and adds nothing; each remaining (id, value) pair is in the result
    under its parameter name unless a later pair of the batch carries the same
    name, in which case the later value is kept; and the result holds nothing
    but values of such pairs. *)
Theorem parse_skips_malformed_keeps_last_per_name
    (component_id : string) (values ids : list pyval) w :
  hashable_keys (named_values ids values) ->
  let r := _parse_component_parameters (A:=A) (Payload:=Payload)
             component_id values ids w in
  fst r = Returned (parsed_params values ids)
  /\ acquirer (snd r) = acquirer w
  /\ calls (snd r) = calls w
  /\ (forall (idx : nat) (param_id v : pyval),
        ids !! idx = Some param_id -> values !! idx = Some v ->
        index_of param_id = None ->
        In (LvlWarning, MsgUnexpectedIdFormat param_id component_id)
           (logs (snd r)))
  /\ (forall (idx : nat) (param_id name v : pyval),
        ids !! idx = Some param_id -> index_of param_id = Some name ->
        values !! idx = Some v ->
        (forall (idx' : nat) (param_id' name' v' : pyval),
           (idx < idx')%nat -> ids !! idx' = Some param_id' ->
           index_of param_id' = Some name' -> values !! idx' = Some v' ->
           key_eqb name' name = false) ->
        dict_get key_eqb name (parsed_params values ids) = Some v)
  /\ (forall name v : pyval,
        hashable name = true ->
        dict_get key_eqb name (parsed_params values ids) = Some v ->
        exists (idx : nat) (param_id name' : pyval),
          ids !! idx = Some param_id /\ index_of param_id = Some name'
          /\ key_eqb name' name = true /\ values !! idx = Some v).
Proof.
  intros Hkeys r. subst r. rewrite (parse_run _ _ _ _ Hkeys). simpl.
  repeat split.
  - intros idx param_id v Hid Hv Hnone.
    apply in_or_app. right.
    destruct values as [|v0 values]; [destruct idx; discriminate|].
    eapply skipped_unexpected; eassumption.
  - intros idx param_id name v Hid Hname Hv Hlater.
    unfold parsed_params, dict_display.
    pose proof (named_values_split _ _ _ _ _ _ Hid Hname Hv) as Hsplit.
    unfold hashable_keys in Hkeys. rewrite Hsplit in Hkeys |- *.
    apply Forall_app in Hkeys as [Hbefore Hafter].
    apply Forall_cons in Hafter as [Hname_ok Hafter].
    apply fold_set_last; auto; [constructor|].
    apply List.Forall_forall. intros [name' v'] Hin.
    destruct (named_values_position _ _ _ _ Hin) as (j & pid & Hj & Hn & Hvj).
    rewrite lookup_drop in Hj, Hvj. simpl.
    eapply (Hlater (S idx + j)%nat); eauto. lia.
  - intros name v Hname Hget.
    destruct (fold_set_origin _ _ _ [] Hkeys Hname (List.Forall_nil _) Hget)
      as [(name' & Hin & Heq)|Hnil]; [|discriminate].
    destruct (named_values_position _ _ _ _ Hin) as (idx & pid & H1 & H2 & H3).
    exists idx, pid, name'. auto.
Qed.

End ParseFacts.

(** ** Parameter propagation *)

Lemma zip_lookup {X Y : Type} (xs : list X) (ys : list Y) (x : X) (y : Y) :
  In (x, y) (zip xs ys) <->
  exists j : nat, xs !! j = Some x /\ ys !! j = Some y.
Proof.
  revert ys; induction xs as [|x0 xs IH]; intros [|y0 ys]; simpl.
  - split; [tauto | intros (j & Hj & _); destruct j; discriminate].
  - split; [tauto | intros (j & Hj & _); destruct j; discriminate].
  - split; [tauto | intros (j & _ & Hj); destruct j; discriminate].
  - rewrite IH. split.
    + intros [[= -> ->]|(j & Hx & Hy)]; [exists 0%nat | exists (S j)]; auto.
    + intros ([|j] & Hx & Hy); simpl in *; [left; congruence | right; eauto].
Qed.

Lemma contributing_keys (components : list string) (ps : list params)
    (c : string) :
  In c (map fst
          (List.filter (fun cp : string * params =>
                          match snd cp with [] => false | _ => true end)
             (zip components ps))) ->
  In c components.
Proof.
  rewrite in_map_iff. intros ([c' p] & <- & Hin).
  apply filter_In in Hin as [Hin _].
  apply zip_lookup in Hin as (j & Hj & _). simpl.
  apply list_elem_of_In. eapply list_elem_of_lookup_2. exact Hj.
Qed.

Lemma contributing_keys_NoDup (components : list string) (ps : list params) :
  NoDup components ->
  NoDup (map fst
           (List.filter (fun cp : string * params =>
                           match snd cp with [] => false | _ => true end)
              (zip components ps))).
Proof.
  intros Hnd; revert ps.
  induction Hnd as [|c components Hc Hnd IH]; intros [|p ps]; simpl;
    try constructor.
  destruct p as [|item p]; simpl; [apply IH|].
  constructor; [|apply IH].
  rewrite list_elem_of_In. intros Hin. apply Hc.
  apply list_elem_of_In. eapply contributing_keys. exact Hin.
Qed.

Section GroupFacts.
Context {A Payload : Type} {Acq : DataAcquirer A} {Ext : Externals}.
Implicit Types (w : world A Payload).

(** The loop sets, component after component, the parsed parameters of those
    that have some. *)
Lemma group_loop_run (components : list string)
    (values_by_type ids_by_type : list (list pyval)) (i : nat)
    (acc : list (string * params)) w :
  (length components + i <= length values_by_type)%nat ->
  (length components + i <= length ids_by_type)%nat ->
  (forall (j : nat) (values ids : list pyval),
     values_by_type !! j = Some values -> ids_by_type !! j = Some ids ->
     hashable_keys (named_values ids values)) ->
  exists more : list (level * message),
    group_loop (A:=A) (Payload:=Payload)
      values_by_type ids_by_type i components acc w =
    (Returned
       (fold_left (fun d cp => dict_set String.eqb (fst cp) (snd cp) d)
          (List.filter (fun cp : string * params =>
                          match snd cp with [] => false | _ => true end)
             (zip components
                (zip_with parsed_params (drop i values_by_type)
                   (drop i ids_by_type))))
          acc),
     with_logs more w).
Proof.
  intros Hvalues Hids Hkeys. revert i acc w Hvalues Hids.
  induction components as [|c components IH]; intros i acc w Hvalues Hids.
  - exists []. simpl. rewrite with_logs_nil. reflexivity.
  - simpl in Hvalues, Hids.
    destruct (lookup_lt_is_Some_2 values_by_type i) as [values Hv]; [lia|].
    destruct (lookup_lt_is_Some_2 ids_by_type i) as [ids Hi]; [lia|].
    rewrite (drop_S _ _ _ Hv), (drop_S _ _ _ Hi).
    cbn [group_loop zip_with List.filter snd]. rewrite Hv, Hi.
    unfold mbind, M_bind.
    rewrite (parse_run c values ids w (Hkeys _ _ _ Hv Hi)).
    destruct (parsed_params values ids) as [|item p] eqn:Hp.
    + destruct (IH (S i) acc (with_logs
                  match values with [] => [] | _ => skipped c ids values end w))
        as [more Hrun]; try lia.
      rewrite Hrun, with_logs_app. eauto.
    + destruct (IH (S i) (dict_set String.eqb c (item :: p) acc)
                  (with_logs
                     match values with [] => [] | _ => skipped c ids values end w))
        as [more Hrun]; try lia.
      rewrite Hrun, with_logs_app. simpl. eauto.
Qed.

(** C5.  Given one list of values and one list of ids per component, with
    parameter names that can be dict keys, the handler makes one call on the
    acquirer, [update_parameters], with the grouped mapping: under each
    component's identifier (the identifiers being unique) the mapping from
    the parameter names of its ids to their values, and no entry for a
    component whose batch yields no parameter nor for anything else. *)
Theorem parameters_are_grouped_and_forwarded
    (all_acquirer_components : list string) (args : list (list pyval)) w :
  let n := length all_acquirer_components in
  length args = (2 * n)%nat ->
  (forall (j : nat) (values ids : list pyval),
     (j < n)%nat -> args !! j = Some values -> args !! (n + j)%nat = Some ids ->
     hashable_keys (named_values ids values)) ->
  let grouped :=
    regroup all_acquirer_components (take n args) (take n (drop n args)) in
  let r := handle_acquirer_parameter_update (A:=A) (Payload:=Payload)
             all_acquirer_components args w in
  calls (snd r) = (calls w ++ [CallUpdateParameters grouped])%list
  /\ acquirer (snd r) = snd (update_parameters grouped (acquirer w))
  /\ fst r = match fst (update_parameters grouped (acquirer w)) with
             | None => Returned tt
             | Some e => Raised e
             end
  /\ (NoDup all_acquirer_components ->
      forall (j : nat) (c : string) (values ids : list pyval),
        all_acquirer_components !! j = Some c ->
        args !! j = Some values -> args !! (n + j)%nat = Some ids ->
        dict_get String.eqb c grouped =
        match parsed_params values ids with
        | [] => None
        | p => Some p
        end)
  /\ (forall c : string,
        ~ In c all_acquirer_components -> dict_get String.eqb c grouped = None).
Proof.
  intros n Hlen Hkeys grouped r.
  assert (Hrun : exists more,
             group_loop (A:=A) (Payload:=Payload)
               (take n args) (take n (drop n args)) 0
               all_acquirer_components [] w =
             (Returned grouped, with_logs more w)).
  { apply group_loop_run.
    - rewrite length_take. fold n. lia.
    - rewrite length_take, length_drop. fold n. lia.
    - intros j values ids Hv Hi.
      destruct (decide (j < n)%nat) as [Hj|Hj].
      + rewrite lookup_take_lt in Hv, Hi by exact Hj.
        rewrite lookup_drop in Hi. eapply Hkeys; eauto.
      + rewrite lookup_take_ge in Hv by lia. discriminate. }
  destruct Hrun as [more Hrun].
  split; [|split; [|split; [|split]]].
  - subst r. unfold handle_acquirer_parameter_update, mbind, M_bind.
    fold n. rewrite Hrun. unfold acquirer_method. simpl.
    destruct (update_parameters grouped (acquirer w)) as [[e|] a']; reflexivity.
  - subst r. unfold handle_acquirer_parameter_update, mbind, M_bind.
    fold n. rewrite Hrun. unfold acquirer_method. simpl.
    destruct (update_parameters grouped (acquirer w)) as [[e|] a']; reflexivity.
  - subst r. unfold handle_acquirer_parameter_update, mbind, M_bind.
    fold n. rewrite Hrun. unfold acquirer_method. simpl.
    destruct (update_parameters grouped (acquirer w)) as [[e|] a']; reflexivity.
  - intros Hnd j c values ids Hc Hv Hi.
    assert (Hj : (j < n)%nat) by (eapply lookup_lt_Some; exact Hc).
    assert (Hp : zip_with parsed_params (take n args) (take n (drop n args)) !! j
                 = Some (parsed_params values ids)).
    { rewrite lookup_zip_with, !lookup_take_lt, lookup_drop by exact Hj.
      rewrite Hv, Hi. reflexivity. }
    subst grouped. unfold regroup, dict_display.
    destruct (parsed_params values ids) as [|item p] eqn:Hparsed.
    + rewrite string_fold_other; [reflexivity|].
      rewrite in_map_iff. intros ([c' p'] & Hfst & Hin). simpl in Hfst. subst c'.
      apply filter_In in Hin as [Hin Hne].
      apply zip_lookup in Hin as (j' & Hc' & Hp').
      assert (j' = j) by (eapply NoDup_lookup; eauto). subst j'.
      rewrite Hp in Hp'. injection Hp' as <-. discriminate.
    + apply string_fold_item.
      * apply contributing_keys_NoDup. exact Hnd.
      * apply filter_In. split; [|reflexivity].
        apply zip_lookup. exists j. auto.
  - intros c Hc. subst grouped. unfold regroup, dict_display.
    rewrite string_fold_other; [reflexivity|].
    intros Hin. apply Hc. eapply contributing_keys. exact Hin.
Qed.

End GroupFacts.

(** ** The properties on the reference acquirer *)

Import Reference.

(** A click on the button of a running acquirer. *)
Lemma click_on_running_acquirer :
  let triggered_id :=
    PDict [ ("type", PStr "live-view-tab-controller");
            ("index", PStr "toggle-acq-button") ] in
  let r := handle_acquisition_control_and_status_update
             controller (PInt 1) PNone triggered_id (initial running) in
  is_button_click controller triggered_id = true
  /\ reported_status running = Some "RUNNING"
  /\ fst r = Returned ("Start Acquisition", "success", "STOPPED", "secondary")
  /\ calls (snd r) = [CallGetLatestData; CallStopAcquisition]
  /\ acquirer (snd r) = stopped.
Proof.
  intros triggered_id r.
  assert (Hclick : is_button_click controller triggered_id = true)
    by reflexivity.
  assert (Hstatus : reported_status running = Some "RUNNING") by reflexivity.
  split; [exact Hclick|]. split; [exact Hstatus|].
  destruct (click_stops_running_starts_other
              controller (PInt 1) PNone triggered_id (initial running)
              "RUNNING" Hclick Hstatus) as [Hrunning _].
  destruct (Hrunning eq_refl) as (Hcalls & Hacquirer & Hreturn).
  split; [exact Hreturn|]. split; [exact Hcalls | exact Hacquirer].
Defined.

(** A status signal while the acquirer runs. *)
Lemma status_signal_on_running_acquirer :
  let r := handle_acquisition_control_and_status_update
             controller PNone (PStr "Acquiring") (PStr "main-status-alert")
             (initial running) in
  is_button_click controller (PStr "main-status-alert") = false
  /\ calls (snd r) = [CallGetLatestData]
  /\ acquirer (snd r) = running.
Proof.
  intros r.
  assert (Hclick : is_button_click controller (PStr "main-status-alert") = false)
    by reflexivity.
  split; [exact Hclick|].
  destruct (reflection_is_read_only
              controller PNone (PStr "Acquiring") (PStr "main-status-alert")
              (initial running) Hclick) as (Hcalls & Hacquirer & _).
  split; [exact Hcalls | exact Hacquirer].
Defined.

(** A status signal after the acquisition failed with "timeout". *)
Lemma status_signal_on_failed_acquirer :
  let r := handle_acquisition_control_and_status_update
             controller PNone (PStr "Failed") (PStr "main-status-alert")
             (initial failed) in
  is_button_click controller (PStr "main-status-alert") = false
  /\ reported_status failed = Some "ERROR"
  /\ fst r = Returned ("Start Acquisition", "success", "ERROR: timeout", "danger").
Proof.
  intros r.
  assert (Hclick : is_button_click controller (PStr "main-status-alert") = false)
    by reflexivity.
  assert (Hstatus : reported_status failed = Some "ERROR") by reflexivity.
  split; [exact Hclick|]. split; [exact Hstatus|].
  destruct (error_badge_is_cut
              controller PNone (PStr "Failed") (PStr "main-status-alert")
              (initial failed) Hclick Hstatus) as (text & Hreturn & Htext & _).
  rewrite Htext in Hreturn. exact Hreturn.
Defined.

(** Activation with the store names of the viewer store contract, on a
    registry that holds version 7 of the live stream. *)
Lemma activation_with_live_data :
  let w := {| acquirer := running; calls := []; logs := [];
              registry := {[ "live" := (tt, 7) ]}; uuid_count := 0 |} in
  "data_pointer" <> "ui_state" /\ "data_pointer" <> "layout_config"
  /\ exists updates,
       fst (on_tab_activated controller w) = Returned updates
       /\ sget "data_pointer" updates =
          Some (PDict [("key", PStr "live"); ("version", PInt 7)]).
Proof.
  intros w.
  assert (Hui : "data_pointer" <> "ui_state") by discriminate.
  assert (Hlayout : "data_pointer" <> "layout_config") by discriminate.
  split; [exact Hui|]. split; [exact Hlayout|].
  destruct (activation_points_viewer_at_live_data (Ext:=externals)
              controller w Hui Hlayout)
    as (updates & version & Hreturn & Hpointer & Hversion & _).
  exists updates. split; [exact Hreturn|].
  rewrite (Hversion 7 eq_refl) in Hpointer. exact Hpointer.
Defined.

(** Activation before anything was written to the registry. *)
Lemma activation_on_empty_registry :
  "data_pointer" <> "ui_state" /\ "data_pointer" <> "layout_config"
  /\ data_registry.get_current_version "live" (registry (initial stopped)) = None
  /\ exists updates,
       fst (on_tab_activated controller (initial stopped)) = Returned updates
       /\ sget "data_pointer" updates =
          Some (PDict [("key", PStr "live"); ("version", PStr "uuid-0")]).
Proof.
  assert (Hui : "data_pointer" <> "ui_state") by discriminate.
  assert (Hlayout : "data_pointer" <> "layout_config") by discriminate.
  assert (Hmiss : data_registry.get_current_version "live"
                    (registry (initial stopped)) = None) by reflexivity.
  split; [exact Hui|]. split; [exact Hlayout|]. split; [exact Hmiss|].
  destruct (activation_without_live_data_uses_placeholder (Ext:=externals)
              controller (initial stopped) Hui Hlayout Hmiss)
    as (updates & Hreturn & Hpointer & _).
  exists updates. split; [exact Hreturn | exact Hpointer].
Defined.

(** A batch of six widgets, the third with its id metadata missing. *)
Lemma batch_with_one_missing_id :
  let named := fun name => PDict [("type", PStr "x-axis"); ("index", PStr name)] in
  let ids := [ named "span"; named "points"; PNone; named "offset";
               named "gain"; named "delay" ] in
  let values := [PInt 3; PInt 5; PInt 0; PInt 1; PInt 2; PInt 4] in
  let r := _parse_component_parameters "x-axis" values ids (initial stopped) in
  hashable_keys (named_values ids values)
  /\ fst r = Returned [ (PStr "span", PInt 3); (PStr "points", PInt 5);
                        (PStr "offset", PInt 1); (PStr "gain", PInt 2);
                        (PStr "delay", PInt 4) ]
  /\ In (LvlWarning, MsgUnexpectedIdFormat PNone "x-axis") (logs (snd r))
  /\ calls (snd r) = [].
Proof.
  intros named ids values r.
  assert (Hkeys : hashable_keys (named_values ids values))
    by (repeat constructor).
  split; [exact Hkeys|].
  destruct (parse_skips_malformed_keeps_last_per_name
              "x-axis" values ids (initial stopped) Hkeys)
    as (Hreturn & _ & Hcalls & Hlogged & _).
  split; [exact Hreturn|]. split; [|exact Hcalls].
  apply (Hlogged 2%nat PNone (PInt 0)); reflexivity.
Defined.

(** C4, as stated, fails on a batch in which two ids carry the same parameter
    name: both pairs are well formed, yet the value of the first is not in
    the result. *)
Lemma repeated_name_loses_earlier_pair :
  let named := fun name => PDict [("type", PStr "x-axis"); ("index", PStr name)] in
  let ids := [named "gain"; named "gain"] in
  let values := [PInt 1; PInt 2] in
  let r := _parse_component_parameters "x-axis" values ids (initial stopped) in
  fst r = Returned [(PStr "gain", PInt 2)]
  /\ ~ (forall (idx : nat) (param_id name v : pyval),
         ids !! idx = Some param_id -> index_of param_id = Some name ->
         values !! idx = Some v ->
         exists d, fst r = Returned d /\ dict_get key_eqb name d = Some v).
Proof.
  intros named ids values r. split; [reflexivity|].
  intros Hall.
  destruct (Hall 0%nat (named "gain") (PStr "gain") (PInt 1)
              eq_refl eq_refl eq_refl) as (d & Hreturn & Hget).
  change (fst r) with (Returned (X:=params) [(PStr "gain", PInt 2)]) in Hreturn.
  injection Hreturn as <-. discriminate Hget.
Qed.

(** Two components, the second without widgets. *)
Lemma two_components_one_contributing :
  let components := ["x-axis"; "y-axis"] in
  let args := [ [PInt 3]; [];
                [PDict [("type", PStr "x-axis"); ("index", PStr "span")]]; [] ] in
  let r := handle_acquirer_parameter_update components args (initial stopped) in
  length args = (2 * length components)%nat
  /\ calls (snd r) =
     [CallUpdateParameters [("x-axis", [(PStr "span", PInt 3)])]]
  /\ fst r = Returned tt.
Proof.
  intros components args r.
  assert (Hlen : length args = (2 * length components)%nat) by reflexivity.
  split; [exact Hlen|].
  assert (Hkeys : forall (j : nat) (values ids : list pyval),
             (j < length components)%nat -> args !! j = Some values ->
             args !! (length components + j)%nat = Some ids ->
             hashable_keys (named_values ids values)).
  { intros [|[|j]] values ids Hj Hv Hi; simpl in *; try lia;
      injection Hv as <-; injection Hi as <-; repeat constructor. }
  destruct (parameters_are_grouped_and_forwarded
              (Acq:=acquirer_interface)
              components args (initial stopped) Hlen Hkeys)
    as (Hcalls & _ & Hreturn & _).
  split; [exact Hcalls | exact Hreturn].
Defined.

(** Two writes to the live stream with a write to another key in between. *)
Lemma read_after_three_writes :
  data_registry.read "live"
    (data_registry.write_all [("live", 10); ("scan", 20); ("live", 30)] ∅)
  = Some (30, 2).
Proof.
  apply (proj2 (read_returns_last_write
                  [("live", 10); ("scan", 20); ("live", 30)] "live" 30 2)).
  exists [("live", 10); ("scan", 20)], [].
  split; [reflexivity|]. split; [constructor | reflexivity].
Defined.

(** * Further properties *)

(** ** The toggle/status handler *)

Section MoreToggleFacts.
Context {A Payload : Type} {Acq : DataAcquirer A} {Ext : Externals}.
Implicit Types (self : LiveViewTabController) (w : world A Payload).

Ltac run_toggle :=
  unfold handle_acquisition_control_and_status_update, call_get_latest_data,
    call_upper, acquirer_method, acquirer_attr, log, raise,
    mbind, mret, M_bind, M_ret;
  simpl.

Lemma error_text_is_not_running (detail : pyval) :
  str_take 100 (error_text detail) <> "RUNNING".
Proof.
  intros Heq.
  assert (Hprefix : String.prefix "ERROR" (str_take 100 (error_text detail)) = true)
    by (unfold error_text; apply prefix_str_take; simpl; lia).
  rewrite Heq in Hprefix. discriminate Hprefix.
Qed.

(** X1.  Whatever the trigger and the snapshot, an answer of the handler is
    coherent: either the button reads "Stop Acquisition" in danger and the
    badge reads RUNNING in success, or the button reads "Start Acquisition"
    (in success or warning) and the badge does not read RUNNING. *)
Theorem answer_is_coherent
    self (toggle_clicks status_alert triggered_id : pyval) w
    (button_text button_color status_text status_color : string) :
  fst (handle_acquisition_control_and_status_update
         self toggle_clicks status_alert triggered_id w)
    = Returned (button_text, button_color, status_text, status_color) ->
  (button_text = "Stop Acquisition" /\ button_color = "danger"
   /\ status_text = "RUNNING" /\ status_color = "success")
  \/
  (button_text = "Start Acquisition" /\ status_text <> "RUNNING"
   /\ (button_color = "success" \/ button_color = "warning")).
Proof.
  run_toggle.
  destruct (default (PStr "unknown") (sget "status" (get_latest_data (acquirer w))))
    as [| | |s| |]; simpl; try discriminate.
  destruct (is_button_click self triggered_id); simpl.
  - destruct (String.eqb_spec (upper s) "RUNNING") as [Hrun|Hrun]; simpl.
    + destruct (stop_acquisition (acquirer w)) as [[e|] a']; simpl;
        [discriminate|].
      intros [= <- <- <- <-]. right. repeat split; auto; try discriminate.
    + destruct (start_acquisition (acquirer w)) as [[e|] a']; simpl;
        [discriminate|].
      intros [= <- <- <- <-]. left. auto.
  - destruct (String.eqb_spec (upper s) "STOPPED");
      destruct (String.eqb_spec (upper s) "RUNNING");
      destruct (String.eqb_spec (upper s) "ERROR");
      simpl; intros [= <- <- <- <-];
      first [ left; solve [auto]
            | right; repeat split; auto;
              solve [ discriminate | apply error_text_is_not_running
                    | assumption ] ].
Qed.

(** X2.  When the snapshot's ["status"] entry is not a string, every
    invocation raises [AttributeError] right after reading the snapshot:
    nothing is started or stopped, even on a click, and nothing is logged. *)
Theorem status_without_upper_raises
    self (toggle_clicks status_alert triggered_id : pyval) w :
  reported_status (acquirer w) = None ->
  let r := handle_acquisition_control_and_status_update
             self toggle_clicks status_alert triggered_id w in
  fst r = Raised AttributeError
  /\ calls (snd r) = (calls w ++ [CallGetLatestData])%list
  /\ acquirer (snd r) = acquirer w
  /\ logs (snd r) = logs w.
Proof.
  intros Hstatus r. subst r. unfold reported_status in Hstatus. run_toggle.
  destruct (default (PStr "unknown") (sget "status" (get_latest_data (acquirer w))));
    try discriminate; repeat split.
Qed.

(** X3.  A snapshot without a ["status"] entry counts as status UNKNOWN: a
    status signal answers "Start Acquisition" and the badge UNKNOWN, both in
    warning, and a click starts the acquisition. *)
Theorem missing_status_is_unknown
    self (toggle_clicks status_alert triggered_id : pyval) w :
  sget "status" (get_latest_data (acquirer w)) = None ->
  let r := handle_acquisition_control_and_status_update
             self toggle_clicks status_alert triggered_id w in
  (is_button_click self triggered_id = false ->
     fst r = Returned ("Start Acquisition", "warning", "UNKNOWN", "warning")
     /\ calls (snd r) = (calls w ++ [CallGetLatestData])%list)
  /\ (is_button_click self triggered_id = true ->
        calls (snd r) =
          (calls w ++ [CallGetLatestData; CallStartAcquisition])%list).
Proof.
  intros Hmissing r. subst r. run_toggle. rewrite Hmissing. simpl.
  split; intros ->; simpl.
  - split; reflexivity.
  - destruct (start_acquisition (acquirer w)) as [[e|] a']; simpl;
      rewrite <- app_assoc; reflexivity.
Qed.

(** X4.  The answer given on a click is the one the next status signal
    confirms, provided the acquirer then reports what the click asked for:
    STOPPED after stopping a RUNNING acquirer, RUNNING after starting any
    other. *)
Theorem click_answer_is_confirmed
    self (toggle_clicks status_alert triggered_id : pyval)
    (toggle_clicks' status_alert' triggered_id' : pyval) w (cs : string) :
  is_button_click self triggered_id = true ->
  is_button_click self triggered_id' = false ->
  reported_status (acquirer w) = Some cs ->
  let r := handle_acquisition_control_and_status_update
             self toggle_clicks status_alert triggered_id w in
  (exists answer, fst r = Returned answer) ->
  reported_status (acquirer (snd r))
    = Some (if String.eqb cs "RUNNING" then "STOPPED" else "RUNNING") ->
  fst (handle_acquisition_control_and_status_update
         self toggle_clicks' status_alert' triggered_id' (snd r)) = fst r.
Proof.
  intros Hclick Hsignal Hstatus r [answer Hanswer] Hafter.
  destruct (reported_status_upper _ _ Hstatus) as (s & Hs & ->).
  destruct (reported_status_upper _ _ Hafter) as (s' & Hs' & Hup').
  revert Hanswer Hs' . subst r. run_toggle. rewrite Hclick, Hs. simpl.
  destruct (String.eqb (upper s) "RUNNING"); simpl.
  - destruct (stop_acquisition (acquirer w)) as [[e|] a']; simpl;
      [discriminate|].
    intros _ Hs'. rewrite Hsignal, Hs'. simpl. rewrite <- Hup'. reflexivity.
  - destruct (start_acquisition (acquirer w)) as [[e|] a']; simpl;
      [discriminate|].
    intros _ Hs'. rewrite Hsignal, Hs'. simpl. rewrite <- Hup'. reflexivity.
Qed.

(** X5.  On a status signal the answer depends on the snapshot only through
    its status in upper case and its ["error"] entry: snapshots that agree on
    these two get the same answer, whatever else they hold and however the
    status is capitalised. *)
Theorem answer_depends_on_status_and_error
    self (toggle_clicks status_alert triggered_id : pyval)
    (toggle_clicks' status_alert' triggered_id' : pyval) w w' :
  is_button_click self triggered_id = false ->
  is_button_click self triggered_id' = false ->
  reported_status (acquirer w) = reported_status (acquirer w') ->
  reported_error (acquirer w) = reported_error (acquirer w') ->
  fst (handle_acquisition_control_and_status_update
         self toggle_clicks status_alert triggered_id w)
  = fst (handle_acquisition_control_and_status_update
           self toggle_clicks' status_alert' triggered_id' w').
Proof.
  unfold reported_status, reported_error. intros Hsignal Hsignal' Hstatus Herror.
  run_toggle. rewrite Hsignal, Hsignal', Herror.
  destruct (default (PStr "unknown") (sget "status" (get_latest_data (acquirer w))));
    destruct (default (PStr "unknown") (sget "status" (get_latest_data (acquirer w'))));
    try discriminate; simpl; try reflexivity.
  injection Hstatus as ->.
  repeat match goal with
         | |- context [if ?b then _ else _] => destruct b; simpl
         end; reflexivity.
Qed.

(** X6.  A pattern-matched (dict) trigger is taken for the button click
    exactly when its ["index"] entry is the string "toggle-acq-button", other
    entries such as ["type"] not being looked at; and the id [_get_id] gives
    the button is recognised when it is a string or a dict carrying that
    index. *)
Theorem button_click_recognition self (d : sdict) :
  (is_button_click self (PDict d) = true
     <-> sget "index" d = Some (PStr "toggle-acq-button"))
  /\ (forall s, _get_id self _TOGGLE_ACQ_BUTTON_ID_SUFFIX = PStr s ->
        is_button_click self (_get_id self _TOGGLE_ACQ_BUTTON_ID_SUFFIX) = true)
  /\ (forall own, _get_id self _TOGGLE_ACQ_BUTTON_ID_SUFFIX = PDict own ->
        sget "index" own = Some (PStr "toggle-acq-button") ->
        is_button_click self (_get_id self _TOGGLE_ACQ_BUTTON_ID_SUFFIX) = true)
  /\ is_button_click self PNone = false.
Proof.
  split; [|split; [|split]].
  - unfold is_button_click, eq_str.
    destruct (sget "index" d) as [[| | |s| |]|]; simpl;
      try (split; [discriminate | intros [=]]).
    rewrite String.eqb_eq.
    split; [intros ->; reflexivity | intros [= ->]; reflexivity].
  - intros s Hid. rewrite Hid at 1. unfold is_button_click. rewrite Hid. simpl.
    apply String.eqb_refl.
  - intros own Hid Hindex. rewrite Hid. unfold is_button_click.
    rewrite Hindex. reflexivity.
  - reflexivity.
Qed.

End MoreToggleFacts.

(** ** Parameter parsing *)

Lemma dict_set_length {K V : Type} (eqb : K -> K -> bool) (k : K) (v : V)
    (d : list (K * V)) :
  (length (dict_set eqb k v d) <= S (length d))%nat.
Proof.
  induction d as [|[k' v'] d IH]; simpl; [lia|].
  destruct (eqb k' k); simpl; lia.
Qed.

Lemma fold_set_length {K V : Type} (eqb : K -> K -> bool)
    (items acc : list (K * V)) :
  (length (fold_left (fun d kv => dict_set eqb (fst kv) (snd kv) d) items acc)
   <= length acc + length items)%nat.
Proof.
  revert acc; induction items as [|[k v] items IH]; intros acc; simpl; [lia|].
  specialize (IH (dict_set eqb k v acc)).
  pose proof (dict_set_length eqb k v acc). lia.
Qed.

Lemma params_set_unique (k v : pyval) (d : params) :
  hashable k = true -> hashable_keys d ->
  unique_keys key_eqb d -> unique_keys key_eqb (dict_set key_eqb k v d).
Proof.
  intros Hk Hd; induction Hd as [|[k' v'] d Hk' Hd IH]; simpl.
  - auto.
  - intros [Hfresh Hunique]. simpl in Hk'.
    destruct (key_eqb k' k) eqn:Ek; simpl.
    + auto.
    + split; [|auto].
      rewrite params_get_set by assumption.
      rewrite key_eqb_sym, Ek. exact Hfresh.
Qed.

Lemma fold_set_unique (items acc : params) :
  hashable_keys items -> hashable_keys acc -> unique_keys key_eqb acc ->
  let d := fold_left (fun d kv => dict_set key_eqb (fst kv) (snd kv) d)
             items acc in
  hashable_keys d /\ unique_keys key_eqb d.
Proof.
  intros Hitems; revert acc.
  induction Hitems as [|[k v] items Hk Hitems IH]; intros acc Hacc Hunique;
    simpl; [auto|].
  apply IH.
  - apply params_set_keys; assumption.
  - apply params_set_unique; assumption.
Qed.

Lemma named_values_length (ids values : list pyval) :
  (length (named_values ids values) <= length ids)%nat
  /\ (length (named_values ids values) <= length values)%nat.
Proof.
  revert values; induction ids as [|i ids IH]; intros [|v values]; simpl;
    try lia.
  specialize (IH values). destruct (index_of i); simpl; lia.
Qed.

(** Each id of a batch that has values adds a pair or a warning, not both. *)
Lemma skipped_or_named (component_id : string) (ids values : list pyval) :
  (length (skipped component_id ids values)
   + length (named_values ids values))%nat = length ids
  /\ Forall (fun record => fst record = LvlWarning)
       (skipped component_id ids values).
Proof.
  revert values; induction ids as [|i ids IH]; intros values; simpl.
  - split; [reflexivity | constructor].
  - destruct (IH (tail values)) as [Hcount Hlevel].
    destruct values as [|v values]; simpl in *.
    + rewrite named_values_nil in Hcount. simpl in Hcount.
      destruct (index_of i); simpl; (split; [lia | constructor; auto]).
    + destruct (index_of i); simpl; (split; [lia | auto]).
Qed.

Lemma skipped_value_missing (component_id : string) (ids values : list pyval)
    (idx : nat) (param_id name : pyval) :
  ids !! idx = Some param_id -> index_of param_id = Some name ->
  values !! idx = None ->
  In (LvlWarning, MsgValueMissing param_id component_id)
     (skipped component_id ids values).
Proof.
  revert idx values.
  induction ids as [|i ids IH]; intros [|idx] values; simpl; try discriminate.
  - intros [= ->] -> Hnone. destruct values; [|discriminate].
    left. reflexivity.
  - intros Hi Hname Hnone. apply in_or_app. right.
    eapply IH; eauto. destruct values; [reflexivity | exact Hnone].
Qed.

Lemma hashable_keys_forallb (items : params) :
  forallb (fun kv => hashable (fst kv)) items = true <-> hashable_keys items.
Proof.
  unfold hashable_keys. rewrite forallb_forall, List.Forall_forall. reflexivity.
Qed.

Section MoreParseFacts.
Context {A Payload : Type} {Acq : DataAcquirer A} {Ext : Externals}.
Implicit Types (w : world A Payload).

Lemma log_with_logs (l : level) (m : message) w :
  log l m w = (Returned tt, with_logs [(l, m)] w).
Proof. reflexivity. Qed.

(** The loop touches nothing but the log. *)
Lemma parse_loop_frame (component_id : string) (values ids : list pyval)
    (idx : nat) (acc : params) w :
  exists more : list (level * message),
    snd (parse_loop (A:=A) (Payload:=Payload)
           component_id values idx ids acc w) = with_logs more w.
Proof.
  revert idx acc w.
  induction ids as [|param_id ids IH]; intros idx acc w.
  - exists []. simpl. rewrite with_logs_nil. reflexivity.
  - cbn [parse_loop].
    destruct (index_of param_id) as [name|].
    + destruct (idx <? length values)%nat.
      * destruct (values !! idx) as [v|].
        -- unfold setitem, mbind, mret, raise, M_bind, M_ret.
           destruct (hashable name).
           ++ apply IH.
           ++ exists []. simpl. rewrite with_logs_nil. reflexivity.
        -- exists []. unfold raise. simpl. rewrite with_logs_nil. reflexivity.
      * unfold mbind, M_bind. rewrite log_with_logs.
        destruct (IH (S idx) acc
                    (with_logs [(LvlWarning, MsgValueMissing param_id component_id)] w))
          as [more Hmore].
        eexists. rewrite Hmore, with_logs_app. reflexivity.
    + unfold mbind, M_bind. rewrite log_with_logs.
      destruct (IH (S idx) acc
                  (with_logs [(LvlWarning, MsgUnexpectedIdFormat param_id component_id)] w))
        as [more Hmore].
      eexists. rewrite Hmore, with_logs_app. reflexivity.
Qed.

(** A name that cannot be a dict key makes the loop raise [TypeError]. *)
Lemma parse_loop_type_error (component_id : string) (values ids : list pyval)
    (idx : nat) (acc : params) w :
  forallb (fun kv => hashable (fst kv)) (named_values ids (drop idx values))
    = false ->
  fst (parse_loop (A:=A) (Payload:=Payload)
         component_id values idx ids acc w) = Raised TypeError.
Proof.
  revert idx acc w.
  induction ids as [|param_id ids IH]; intros idx acc w Hkeys.
  - discriminate Hkeys.
  - cbn [parse_loop].
    destruct (Nat.ltb_spec idx (length values)) as [Hlt|Hge].
    + destruct (lookup_lt_is_Some_2 values idx Hlt) as [v Hv].
      rewrite (drop_S _ _ _ Hv) in Hkeys. cbn [named_values] in Hkeys.
      rewrite Hv.
      destruct (index_of param_id) as [name|] eqn:Hname.
      * simpl in Hkeys. unfold setitem, mbind, mret, raise, M_bind, M_ret.
        destruct (hashable name); simpl in Hkeys; [|reflexivity].
        apply IH. exact Hkeys.
      * unfold log, mbind, M_bind. apply IH. exact Hkeys.
    + rewrite (drop_ge values idx), named_values_nil in Hkeys by lia.
      discriminate Hkeys.
Qed.

Lemma parse_frame (component_id : string) (values ids : list pyval) w :
  exists more : list (level * message),
    snd (_parse_component_parameters (A:=A) (Payload:=Payload)
           component_id values ids w) = with_logs more w.
Proof.
  unfold _parse_component_parameters.
  destruct values as [|v values]; [|destruct ids as [|i ids]];
    try (exists []; simpl; rewrite with_logs_nil; reflexivity).
  apply parse_loop_frame.
Qed.

Lemma parse_outcome (component_id : string) (values ids : list pyval) w :
  fst (_parse_component_parameters (A:=A) (Payload:=Payload)
         component_id values ids w)
  = if forallb (fun kv => hashable (fst kv)) (named_values ids values)
    then Returned (parsed_params values ids)
    else Raised TypeError.
Proof.
  destruct (forallb (fun kv => hashable (fst kv)) (named_values ids values))
    eqn:Hkeys.
  - apply hashable_keys_forallb in Hkeys.
    rewrite (parse_run _ _ _ _ Hkeys). reflexivity.
  - unfold _parse_component_parameters.
    destruct values as [|v values];
      [rewrite named_values_nil in Hkeys; discriminate|].
    destruct ids as [|i ids]; [discriminate|].
    apply parse_loop_type_error. exact Hkeys.
Qed.

(** X7.  [_parse_component_parameters] either returns the mapping of the
    batch's parameter names to values, or raises [TypeError], which it does
    exactly when a parameter name with a value cannot be a dict key (a list
    or a dict); it never raises [IndexError].  Either way only the log
    changes, and the outcome depends neither on the component id nor on the
    state it runs in. *)
Theorem parse_returns_or_raises_type_error
    (component_id : string) (values ids : list pyval) w :
  let r := _parse_component_parameters (A:=A) (Payload:=Payload)
             component_id values ids w in
  fst r = (if forallb (fun kv => hashable (fst kv)) (named_values ids values)
           then Returned (parsed_params values ids)
           else Raised TypeError)
  /\ acquirer (snd r) = acquirer w
  /\ calls (snd r) = calls w
  /\ registry (snd r) = registry w
  /\ uuid_count (snd r) = uuid_count w.
Proof.
  intros r. subst r. split; [apply parse_outcome|].
  destruct (parse_frame component_id values ids w) as [more ->].
  repeat split.
Qed.

Lemma parse_returned (component_id : string) (values ids : list pyval) w
    (d : params) :
  fst (_parse_component_parameters (A:=A) (Payload:=Payload)
         component_id values ids w) = Returned d ->
  hashable_keys (named_values ids values) /\ d = parsed_params values ids.
Proof.
  rewrite parse_outcome.
  destruct (forallb (fun kv => hashable (fst kv)) (named_values ids values))
    eqn:Hkeys; [|discriminate].
  intros [= <-]. split; [|reflexivity].
  apply hashable_keys_forallb. exact Hkeys.
Qed.

(** X8.  When the parsing of a batch with values and ids returns, each id
    has been used for exactly one entry-to-be or logged with exactly one
    warning: the ids that contribute a (name, value) pair and the records
    added to the log, all warnings, add up to the number of ids.  A batch
    without values, or without ids, returns the empty mapping and logs
    nothing. *)
Theorem every_id_is_used_or_logged
    (component_id : string) (values ids : list pyval) w (d : params) :
  let r := _parse_component_parameters (A:=A) (Payload:=Payload)
             component_id values ids w in
  fst r = Returned d ->
  (values <> [] -> ids <> [] ->
     exists more : list (level * message),
       logs (snd r) = (logs w ++ more)%list
       /\ (length more + length (named_values ids values))%nat = length ids
       /\ Forall (fun record => fst record = LvlWarning) more)
  /\ (values = [] \/ ids = [] -> d = [] /\ snd r = w).
Proof.
  intros r Hreturned. subst r.
  destruct (parse_returned _ _ _ _ _ Hreturned) as [Hkeys ->].
  rewrite (parse_run _ _ _ _ Hkeys). simpl. split.
  - intros Hvalues Hids.
    exists (skipped component_id ids values).
    destruct values as [|v values]; [congruence|].
    split; [reflexivity|]. apply skipped_or_named.
  - intros [-> | ->].
    + unfold parsed_params. rewrite named_values_nil, with_logs_nil. auto.
    + unfold parsed_params. destruct values; simpl; rewrite with_logs_nil; auto.
Qed.

(** X9.  A mapping the parsing returns is a proper dict of at most as many
    entries as the batch has ids and has values: no two of its names are
    equal (in the sense of Python's [==], so [True] and [1] count as one
    name) and every name can be a dict key. *)
Theorem parsed_mapping_is_a_dict
    (component_id : string) (values ids : list pyval) w (d : params) :
  fst (_parse_component_parameters (A:=A) (Payload:=Payload)
         component_id values ids w) = Returned d ->
  unique_keys key_eqb d
  /\ hashable_keys d
  /\ (length d <= length ids)%nat
  /\ (length d <= length values)%nat.
Proof.
  intros Hreturned.
  destruct (parse_returned _ _ _ _ _ Hreturned) as [Hkeys ->].
  unfold parsed_params, dict_display.
  destruct (fold_set_unique (named_values ids values) [] Hkeys
              (List.Forall_nil _) I) as [Hhash Hunique].
  pose proof (fold_set_length key_eqb (named_values ids values) []) as Hlen.
  destruct (named_values_length ids values) as [Hids Hvalues].
  simpl in Hlen. repeat split; auto; lia.
Qed.

(** X10.  When the parsing returns, an id that carries a parameter name but
    lies beyond the last value of a batch that has values is logged with a
    "value missing" warning. *)
Theorem id_without_value_is_logged
    (component_id : string) (values ids : list pyval) w (d : params)
    (idx : nat) (param_id name : pyval) :
  let r := _parse_component_parameters (A:=A) (Payload:=Payload)
             component_id values ids w in
  fst r = Returned d ->
  values <> [] ->
  ids !! idx = Some param_id -> index_of param_id = Some name ->
  (length values <= idx)%nat ->
  In (LvlWarning, MsgValueMissing param_id component_id) (logs (snd r)).
Proof.
  intros r Hreturned Hvalues Hid Hname Hbeyond. subst r.
  destruct (parse_returned _ _ _ _ _ Hreturned) as [Hkeys _].
  rewrite (parse_run _ _ _ _ Hkeys). simpl.
  apply in_or_app. right.
  destruct values as [|v values]; [congruence|].
  eapply skipped_value_missing; eauto.
  apply lookup_ge_None. exact Hbeyond.
Qed.

Lemma parse_loop_surplus (component_id : string)
    (values extra ids : list pyval) (idx : nat) (acc : params) w :
  (idx + length ids <= length values)%nat ->
  parse_loop (A:=A) (Payload:=Payload)
    component_id (values ++ extra) idx ids acc w
  = parse_loop component_id values idx ids acc w.
Proof.
  revert idx acc w.
  induction ids as [|param_id ids IH]; intros idx acc w Hlen; [reflexivity|].
  simpl in Hlen. cbn [parse_loop].
  assert (Hlt : (idx < length values)%nat) by lia.
  assert (Hlt' : (idx < length (values ++ extra))%nat)
    by (rewrite length_app; lia).
  apply Nat.ltb_lt in Hlt'. rewrite Hlt'.
  rewrite (lookup_app_l values extra idx Hlt).
  apply Nat.ltb_lt in Hlt. rewrite Hlt.
  destruct (index_of param_id) as [name|].
  - destruct (values !! idx) as [v|]; [|reflexivity].
    unfold setitem, mbind, mret, raise, M_bind, M_ret.
    destruct (hashable name); [|reflexivity].
    apply IH. lia.
  - unfold log, mbind, M_bind. apply IH. lia.
Qed.

(** X11.  Values beyond the last id are ignored without a warning: a batch
    with at least as many values as ids is parsed exactly as the batch cut
    to as many values as it has ids would be. *)
Theorem surplus_values_are_ignored
    (component_id : string) (values extra ids : list pyval) w :
  (length ids <= length values)%nat ->
  _parse_component_parameters (A:=A) (Payload:=Payload)
    component_id (values ++ extra) ids w
  = _parse_component_parameters component_id values ids w.
Proof.
  intros Hlen. unfold _parse_component_parameters.
  destruct ids as [|i ids].
  - destruct values, extra; reflexivity.
  - destruct values as [|v values]; [simpl in Hlen; lia|].
    cbn [app].
    apply (parse_loop_surplus component_id (v :: values) extra (i :: ids) 0 []).
    exact Hlen.
Qed.

End MoreParseFacts.

(** ** Parameter propagation *)

Section MoreGroupFacts.
Context {A Payload : Type} {Acq : DataAcquirer A} {Ext : Externals}.
Implicit Types (w : world A Payload).

(** The grouping loop touches nothing but the log, and raises nothing but
    [IndexError] and [TypeError]. *)
Lemma group_loop_frame (components : list string)
    (values_by_type ids_by_type : list (list pyval)) (i : nat)
    (acc : list (string * params)) w :
  let r := group_loop (A:=A) (Payload:=Payload)
             values_by_type ids_by_type i components acc w in
  (exists more : list (level * message), snd r = with_logs more w)
  /\ (forall e, fst r = Raised e -> e = IndexError \/ e = TypeError).
Proof.
  revert i acc w.
  induction components as [|c components IH]; intros i acc w; cbn zeta.
  - split; [exists []; simpl; rewrite with_logs_nil; reflexivity|].
    simpl. discriminate.
  - cbn [group_loop].
    destruct (values_by_type !! i) as [values|];
      [destruct (ids_by_type !! i) as [ids|]|];
      try (split; [exists []; unfold raise; simpl; rewrite with_logs_nil;
                   reflexivity
                  | unfold raise; simpl; intros e [= <-]; auto]).
    unfold mbind, M_bind.
    pose proof (parse_outcome c values ids w) as Hfst.
    destruct (parse_frame c values ids w) as [more Hsnd].
    destruct (_parse_component_parameters c values ids w) as [[p|e] w1];
      simpl in Hfst, Hsnd; subst w1.
    + destruct p as [|item p].
      * destruct (IH (S i) acc (with_logs more w)) as [[more' Hmore'] Herr].
        split; [|exact Herr].
        eexists. rewrite Hmore', with_logs_app. reflexivity.
      * destruct (IH (S i) (dict_set String.eqb c (item :: p) acc)
                    (with_logs more w)) as [[more' Hmore'] Herr].
        split; [|exact Herr].
        eexists. rewrite Hmore', with_logs_app. reflexivity.
    + split; [eauto|]. simpl. intros e' [= <-].
      destruct (forallb _ _) in Hfst; [discriminate|].
      injection Hfst as ->. auto.
Qed.

(** The loop raises as soon as a component has no list of values or no list
    of ids. *)
Lemma group_loop_short (components : list string)
    (values_by_type ids_by_type : list (list pyval)) (i : nat)
    (acc : list (string * params)) w (j : nat) :
  (i <= j < i + length components)%nat ->
  values_by_type !! j = None \/ ids_by_type !! j = None ->
  exists e, fst (group_loop (A:=A) (Payload:=Payload)
                   values_by_type ids_by_type i components acc w) = Raised e.
Proof.
  revert i acc w.
  induction components as [|c components IH]; intros i acc w Hj Hnone;
    simpl in Hj; [lia|].
  cbn [group_loop].
  destruct (values_by_type !! i) as [values|] eqn:Hv;
    [destruct (ids_by_type !! i) as [ids|] eqn:Hi|];
    try (unfold raise; simpl; eauto; fail).
  assert (Hnext : (S i <= j < S i + length components)%nat).
  { destruct (decide (j = i)) as [->|]; [|lia].
    destruct Hnone; congruence. }
  unfold mbind, M_bind.
  destruct (_parse_component_parameters c values ids w) as [[p|e] w1];
    [|simpl; eauto].
  destruct p; apply IH; auto.
Qed.

(** A component without values adds nothing, not even to the log. *)
Lemma group_loop_no_values (components : list string)
    (values_by_type ids_by_type : list (list pyval)) (i : nat)
    (acc : list (string * params)) w :
  (forall j, (i <= j < i + length components)%nat ->
             values_by_type !! j = Some []
             /\ exists ids, ids_by_type !! j = Some ids) ->
  group_loop (A:=A) (Payload:=Payload)
    values_by_type ids_by_type i components acc w = (Returned acc, w).
Proof.
  revert i.
  induction components as [|c components IH]; intros i Hempty; [reflexivity|].
  cbn [group_loop]. simpl in Hempty.
  destruct (Hempty i) as [Hv [ids Hi]]; [lia|].
  rewrite Hv, Hi. unfold mbind, M_bind. simpl.
  apply IH. intros j Hj. apply Hempty. lia.
Qed.

(** X12.  Whatever its arguments, the parameter handler makes at most one
    call on the acquirer, and that call is [update_parameters]: either it
    raises [IndexError] or [TypeError] before calling anything, leaving the
    acquirer as it was, or it calls [update_parameters] once, with some
    mapping, and returns unless that call raises.  The registry is never
    touched. *)
Theorem update_parameters_is_the_only_call
    (all_acquirer_components : list string) (args : list (list pyval)) w :
  let r := handle_acquirer_parameter_update (A:=A) (Payload:=Payload)
             all_acquirer_components args w in
  registry (snd r) = registry w
  /\ ((exists e, fst r = Raised e /\ (e = IndexError \/ e = TypeError)
                 /\ calls (snd r) = calls w /\ acquirer (snd r) = acquirer w)
      \/
      (exists grouped,
          calls (snd r) = (calls w ++ [CallUpdateParameters grouped])%list
          /\ acquirer (snd r) = snd (update_parameters grouped (acquirer w))
          /\ fst r = match fst (update_parameters grouped (acquirer w)) with
                     | None => Returned tt
                     | Some e => Raised e
                     end)).
Proof.
  intros r. subst r. unfold handle_acquirer_parameter_update, mbind, M_bind.
  set (n := length all_acquirer_components).
  destruct (group_loop_frame all_acquirer_components (take n args)
              (take n (drop n args)) 0 [] w) as [[more Hsnd] Herr].
  destruct (group_loop (take n args) (take n (drop n args)) 0
              all_acquirer_components [] w) as [[grouped|e] w1];
    simpl in Hsnd, Herr; subst w1.
  - unfold acquirer_method. simpl.
    destruct (update_parameters grouped (acquirer w)) as [[e|] a'] eqn:Hcall;
      simpl; (split; [reflexivity|]); right; exists grouped; rewrite Hcall;
      repeat split.
  - simpl. split; [reflexivity|]. left. exists e.
    repeat split. apply Herr. reflexivity.
Qed.

(** X13.  With fewer arguments than two per component (a list of values and
    a list of ids each) the handler raises before it calls
    [update_parameters]: the acquirer is not touched. *)
Theorem too_few_arguments_raise
    (all_acquirer_components : list string) (args : list (list pyval)) w :
  (length args < 2 * length all_acquirer_components)%nat ->
  let r := handle_acquirer_parameter_update (A:=A) (Payload:=Payload)
             all_acquirer_components args w in
  exists e, fst r = Raised e /\ (e = IndexError \/ e = TypeError)
            /\ calls (snd r) = calls w /\ acquirer (snd r) = acquirer w.
Proof.
  intros Hshort r. subst r.
  unfold handle_acquirer_parameter_update, mbind, M_bind.
  set (n := length all_acquirer_components) in *.
  destruct (group_loop_frame all_acquirer_components (take n args)
              (take n (drop n args)) 0 [] w) as [[more Hsnd] Herr].
  destruct (group_loop_short all_acquirer_components (take n args)
              (take n (drop n args)) 0 [] w
              (length (take n (drop n args)))) as [e He].
  - rewrite length_take, length_drop. fold n. lia.
  - right. apply lookup_ge_None. lia.
  - destruct (group_loop (take n args) (take n (drop n args)) 0
                all_acquirer_components [] w) as [[grouped|e'] w1];
      simpl in Hsnd, Herr, He; [discriminate|]. subst w1.
    exists e'. simpl. repeat split. apply Herr. reflexivity.
Qed.

(** X14.  Arguments beyond the first two per component are ignored. *)
Theorem surplus_arguments_are_ignored
    (all_acquirer_components : list string) (args extra : list (list pyval)) w :
  (2 * length all_acquirer_components <= length args)%nat ->
  handle_acquirer_parameter_update (A:=A) (Payload:=Payload)
    all_acquirer_components (args ++ extra) w
  = handle_acquirer_parameter_update all_acquirer_components args w.
Proof.
  intros Hlen. unfold handle_acquirer_parameter_update.
  set (n := length all_acquirer_components) in *.
  rewrite (take_app_le args extra n) by lia.
  rewrite (drop_app_le args extra n) by lia.
  rewrite (take_app_le (drop n args) extra n)
    by (rewrite length_drop; lia).
  reflexivity.
Qed.

(** X15.  When no component has any value (each list of values is empty),
    the handler still calls [update_parameters], with the empty mapping, and
    logs nothing, whatever the ids are. *)
Theorem no_values_forward_empty_mapping
    (all_acquirer_components : list string) (args : list (list pyval)) w :
  let n := length all_acquirer_components in
  (2 * n <= length args)%nat ->
  (forall j, (j < n)%nat -> args !! j = Some []) ->
  let r := handle_acquirer_parameter_update (A:=A) (Payload:=Payload)
             all_acquirer_components args w in
  calls (snd r) = (calls w ++ [CallUpdateParameters []])%list
  /\ logs (snd r) = logs w.
Proof.
  intros n Hlen Hempty r. subst r.
  unfold handle_acquirer_parameter_update, mbind, M_bind. fold n.
  rewrite group_loop_no_values.
  - unfold acquirer_method. simpl.
    destruct (update_parameters [] (acquirer w)) as [[e|] a']; auto.
  - intros j Hj. fold n in Hj. split.
    + rewrite lookup_take_lt by lia. apply Hempty. lia.
    + apply lookup_lt_is_Some_2. rewrite length_take, length_drop. lia.
Qed.

End MoreGroupFacts.

(** ** Tab switching and layout *)

Lemma nodes_self (n : node) : In n (nodes n).
Proof. destruct n; left; reflexivity. Qed.

Lemma nodes_child (c : node) (children : list node) :
  In c children -> In c (flat_map nodes children).
Proof. intros Hin. apply in_flat_map. exists c. split; [exact Hin | apply nodes_self]. Qed.

Section MoreTabFacts.
Context {A Payload : Type} {Acq : DataAcquirer A} {Ext : Externals}.
Implicit Types (self : LiveViewTabController) (w : world A Payload).

(** X16.  While nothing is written under the live-data key, every
    activation draws a UUID of its own: two activations in a row put the
    texts of two successive draws in the viewer's data pointer, so the
    pointer of the second differs from that of the first whenever the two
    UUIDs do. *)
Theorem each_activation_draws_its_own_placeholder self w :
  VIEWER_DATA_STORE_SUFFIX <> VIEWER_UI_STATE_STORE_SUFFIX ->
  VIEWER_DATA_STORE_SUFFIX <> VIEWER_LAYOUT_CONFIG_STORE_SUFFIX ->
  data_registry.get_current_version LIVE_DATA_KEY (registry w) = None ->
  let first := on_tab_activated self w in
  let second := on_tab_activated self (snd first) in
  exists updates updates' : sdict,
    fst first = Returned updates /\ fst second = Returned updates'
    /\ sget VIEWER_DATA_STORE_SUFFIX updates =
       Some (PDict [ ("key", PStr LIVE_DATA_KEY);
                     ("version", PStr (uuid4 (uuid_count w))) ])
    /\ sget VIEWER_DATA_STORE_SUFFIX updates' =
       Some (PDict [ ("key", PStr LIVE_DATA_KEY);
                     ("version", PStr (uuid4 (S (uuid_count w)))) ])
    /\ uuid_count (snd second) = S (S (uuid_count w)).
Proof.
  intros Hui Hlayout Hmiss first second.
  destruct (on_tab_activated_updates self w)
    as (v1 & Hret1 & Hv1 & Hcount1 & _ & _ & Hreg1).
  fold first in Hret1, Hcount1, Hreg1.
  destruct (on_tab_activated_updates self (snd first))
    as (v2 & Hret2 & Hv2 & Hcount2 & _).
  fold second in Hret2, Hcount2.
  rewrite Hreg1, Hmiss in Hv2, Hcount2. rewrite Hmiss in Hv1, Hcount1.
  rewrite Hcount1 in Hv2, Hcount2. subst v1 v2.
  eexists _, _. split; [exact Hret1|]. split; [exact Hret2|].
  split; [|split; [|exact Hcount2]].
  - apply (viewer_stores_lookup _ Hui Hlayout).
  - apply (viewer_stores_lookup _ Hui Hlayout).
Qed.

(** X17.  Once the live-data key has a version, activation is repeatable: it
    draws no UUID, and activating again, as long as no one writes to the
    registry, returns the same store updates. *)
Theorem activation_is_repeatable_with_live_data self w (v : Z) :
  data_registry.get_current_version LIVE_DATA_KEY (registry w) = Some v ->
  let first := on_tab_activated self w in
  let second := on_tab_activated self (snd first) in
  fst second = fst first
  /\ uuid_count (snd first) = uuid_count w
  /\ uuid_count (snd second) = uuid_count w.
Proof.
  intros Hversion first second.
  destruct (on_tab_activated_updates self w)
    as (v1 & Hret1 & Hv1 & Hcount1 & _ & _ & Hreg1).
  fold first in Hret1, Hcount1, Hreg1.
  destruct (on_tab_activated_updates self (snd first))
    as (v2 & Hret2 & Hv2 & Hcount2 & _).
  fold second in Hret2, Hcount2.
  rewrite Hreg1, Hversion in Hv2, Hcount2. rewrite Hversion in Hv1, Hcount1.
  subst v1 v2. rewrite Hret1, Hret2, Hcount2, Hcount1. auto.
Qed.

(** X18.  When the three store names are pairwise different, the updates of
    an activation are exactly three entries: data store, UI state and layout
    configuration, in this order. *)
Theorem activation_returns_three_entries self w :
  VIEWER_DATA_STORE_SUFFIX <> VIEWER_UI_STATE_STORE_SUFFIX ->
  VIEWER_DATA_STORE_SUFFIX <> VIEWER_LAYOUT_CONFIG_STORE_SUFFIX ->
  VIEWER_UI_STATE_STORE_SUFFIX <> VIEWER_LAYOUT_CONFIG_STORE_SUFFIX ->
  exists updates : sdict,
    fst (on_tab_activated self w) = Returned updates
    /\ map fst updates =
       [ VIEWER_DATA_STORE_SUFFIX; VIEWER_UI_STATE_STORE_SUFFIX;
         VIEWER_LAYOUT_CONFIG_STORE_SUFFIX ].
Proof.
  intros Hui Hlayout Hdiff.
  destruct (on_tab_activated_updates self w) as (version & Hret & _).
  eexists. split; [exact Hret|].
  apply String.eqb_neq in Hui, Hlayout, Hdiff.
  unfold dict_display. simpl. rewrite Hui. simpl. rewrite Hlayout, Hdiff.
  reflexivity.
Qed.

(** X19.  The layout embeds every component the acquirer supplies (asked
    for with its sub-components); for an acquirer object that is falsy it
    shows, instead, the paragraph saying that the components could not be
    loaded. *)
Theorem layout_embeds_acquirer_controls self (a : A) :
  (acquirer_bool a = true ->
     forall c, In c (get_dash_components true a) ->
               In c (nodes (layout_tree self a)))
  /\ (acquirer_bool a = false ->
        In (Elem "html.P"
              [Text "Data acquirer components could not be loaded."] [])
           (nodes (layout_tree self a))).
Proof.
  split; intros Hbool.
  - intros c Hin. unfold layout_tree. rewrite Hbool.
    cbn [nodes flat_map app]. repeat apply in_cons.
    pose proof (nodes_child _ _ Hin) as Hchild.
    rewrite ?in_app_iff. tauto.
  - unfold layout_tree. rewrite Hbool.
    cbn [nodes flat_map app In].
    repeat (first [left; reflexivity | right]).
Qed.

End MoreTabFacts.

(** ** Conversion to Dash components *)

Lemma pyval_nested_ind (P : pyval -> Prop) :
  P PNone -> (forall b, P (PBool b)) -> (forall z, P (PInt z)) ->
  (forall s, P (PStr s)) ->
  (forall l, Forall P l -> P (PList l)) ->
  (forall d, Forall (fun kv => P (snd kv)) d -> P (PDict d)) ->
  forall v, P v.
Proof.
  intros Hnone Hbool Hint Hstr Hlist Hdict.
  fix IH 1. intros [|b|z|s|l|d].
  - exact Hnone.
  - apply Hbool.
  - apply Hint.
  - apply Hstr.
  - apply Hlist. induction l as [|e l IHl]; constructor; [apply IH | exact IHl].
  - apply Hdict. induction d as [|[k e] d IHd]; constructor;
      [apply IH | exact IHd].
Qed.

Section ConvertFacts.
Import dash_utils.
Context {Lib : DashLibraries}.

Lemma entry_lookup {Y : Type} (f : pyval -> attempt Y) (key : string)
    (items : sdict) :
  entry f key items =
  match sget key items with
  | Some value =>
      match f value with
      | Failed x => Failed x
      | Done c => Done (Some c)
      end
  | None => Done None
  end.
Proof.
  induction items as [|[k v] items IH]; simpl; [reflexivity|].
  unfold sget in *. simpl. destruct (String.eqb k key); [reflexivity | exact IH].
Qed.

Lemma props_entry_lookup {Y : Type} (g : sdict -> attempt (option Y))
    (items : sdict) :
  props_entry g items =
  match sget "props" items with
  | Some (PDict props) => g props
  | _ => Done None
  end.
Proof.
  induction items as [|[k v] items IH]; simpl; [reflexivity|].
  unfold sget in *. simpl. destruct (String.eqb k "props"); [|exact IH].
  destruct v; reflexivity.
Qed.

Lemma each_done {X Y : Type} (f : X -> attempt Y) (l : list X) (cs : list Y) :
  each f l = Done cs <-> Forall2 (fun e c => f e = Done c) l cs.
Proof.
  revert cs; induction l as [|e l IH]; intros cs; simpl.
  - split; [intros [= <-]; constructor | intros Hall; inversion Hall; auto].
  - destruct (f e) as [c|x] eqn:He.
    + destruct (each f l) as [cs'|x] eqn:Hrest.
      * split.
        -- intros [= <-]. constructor; [exact He | apply IH; reflexivity].
        -- intros Hall. inversion Hall as [|? c' ? cs'' Hc Hcs]; subst.
           apply IH in Hcs. congruence.
      * split; [discriminate|].
        intros Hall. inversion Hall as [|? c' ? cs'' Hc Hcs]; subst.
        apply IH in Hcs. discriminate.
    + split; [discriminate|].
      intros Hall. inversion Hall; subst. congruence.
Qed.

Lemma each_failed {X Y : Type} (f : X -> attempt Y) (l : list X) (x : raised) :
  each f l = Failed x <->
  exists (i : nat) (e : X),
    l !! i = Some e /\ f e = Failed x
    /\ forall (j : nat) (e' : X), (j < i)%nat -> l !! j = Some e' ->
                                  exists c, f e' = Done c.
Proof.
  induction l as [|e l IH]; simpl.
  - split; [discriminate | intros (i & e & Hi & _); destruct i; discriminate].
  - destruct (f e) as [c|y] eqn:He.
    + transitivity (each f l = Failed x).
      { destruct (each f l); split; congruence. }
      rewrite IH. split.
      * intros (i & e' & Hi & Hf & Hb).
        exists (S i), e'. repeat split; auto.
        intros [|j] e'' Hj Hlook; simpl in Hlook.
        -- injection Hlook as <-. eauto.
        -- apply (Hb j e''); [lia | exact Hlook].
      * intros ([|i] & e' & Hi & Hfail & Hbefore); simpl in Hi.
        -- congruence.
        -- exists i, e'. repeat split; auto.
           intros j e'' Hj Hlook.
           apply (Hbefore (S j) e''); [lia | exact Hlook].
    + split.
      * intros [= <-]. exists 0%nat, e. repeat split; auto. intros; lia.
      * intros ([|i] & e' & Hi & Hfail & Hbefore); simpl in Hi.
        -- congruence.
        -- destruct (Hbefore 0%nat e) as [c Hc]; [lia | reflexivity | congruence].
Qed.

(** X20.  Data without component descriptions passes through unchanged: an
    element none of whose dicts, at any depth, has a ["namespace"] entry is
    converted, without any exception, into the same lists, dicts and
    values. *)
Theorem plain_data_passes_through (elem : pyval) :
  plain elem = true ->
  convert_to_dash_component elem = Done (same_data elem).
Proof.
  induction elem as [| | | |l IH|d IH] using pyval_nested_ind;
    try reflexivity; intros Hplain.
  - simpl in Hplain |- *.
    assert (Hall : each convert_to_dash_component l = Done (map same_data l)).
    { apply each_done. induction IH as [|e l He IH IHl]; simpl; constructor.
      - apply He. simpl in Hplain. apply andb_true_iff in Hplain. tauto.
      - apply IHl. simpl in Hplain. apply andb_true_iff in Hplain. tauto. }
    rewrite Hall. reflexivity.
  - simpl in Hplain |- *. apply andb_true_iff in Hplain as [Hns Hvalues].
    rewrite Hns.
    assert (Hall : each_value convert_to_dash_component d
                   = Done (map (fun kv => (fst kv, same_data (snd kv))) d)).
    { clear Hns. induction IH as [|[k e] d He IH IHd]; simpl; [reflexivity|].
      simpl in Hvalues, He. apply andb_true_iff in Hvalues as [Hplain Hvalues].
      rewrite (He Hplain), (IHd Hvalues). reflexivity. }
    rewrite Hall. reflexivity.
Qed.

(** X21.  A list converts exactly when each of its elements does, into the
    list of their conversions, in order; and it fails with the exception of
    the first element that fails. *)
Theorem list_is_converted_elementwise (l : list pyval) :
  (forall r, convert_to_dash_component (PList l) = Done r <->
             exists cs, r = Items cs
                        /\ Forall2 (fun e c => convert_to_dash_component e = Done c)
                             l cs)
  /\ (forall x, convert_to_dash_component (PList l) = Failed x <->
                exists (i : nat) (e : pyval),
                  l !! i = Some e /\ convert_to_dash_component e = Failed x
                  /\ forall (j : nat) (e' : pyval),
                       (j < i)%nat -> l !! j = Some e' ->
                       exists c, convert_to_dash_component e' = Done c).
Proof.
  split.
  - intros r. simpl.
    destruct (each convert_to_dash_component l) as [cs|x] eqn:Heach.
    + apply each_done in Heach. split.
      * intros [= <-]. eauto.
      * intros (cs' & -> & Hall). apply each_done in Hall, Heach. congruence.
    + split; [discriminate|].
      intros (cs' & -> & Hall). apply each_done in Hall. congruence.
  - intros x. rewrite <- each_failed. simpl.
    destruct (each convert_to_dash_component l); split; congruence.
Qed.

(** A dict with a ["namespace"] entry is a component description; what the
    function does with it, with the lookups written out. *)
Lemma convert_description (d : sdict) :
  sin "namespace" d = true ->
  convert_to_dash_component (PDict d) =
  let children :=
    match sget "props" d with
    | Some (PDict props) =>
        match sget "children" props with
        | Some c =>
            match convert_to_dash_component c with
            | Failed x => Failed x
            | Done cc => Done (Some cc)
            end
        | None => Done None
        end
    | _ => Done None
    end in
  let namespace := default PNone (sget "namespace" d) in
  if eq_str namespace "dash_html_components" then
    html_or_dbc "html" d children
  else if eq_str namespace "dash_bootstrap_components" then
    html_or_dbc "dbc" d children
  else graph_or_unknown d.
Proof.
  intros Hns. cbn [convert_to_dash_component]. rewrite Hns. cbn [negb].
  rewrite props_entry_lookup.
  destruct (sget "props" d) as [[| | | | |props]|]; try reflexivity.
  rewrite entry_lookup. reflexivity.
Qed.

Lemma dict_del_subset {K V : Type} (eqb : K -> K -> bool) (k : K)
    (d : list (K * V)) (kv : K * V) :
  In kv (dict_del eqb k d) -> In kv d.
Proof.
  induction d as [|[k' v'] d IH]; simpl; [tauto|].
  destruct (eqb k' k); simpl; tauto.
Qed.

(** The library a namespace stands for. *)
Lemma library_branch (d : sdict) (namespace library : string) :
  (namespace = "dash_html_components" /\ library = "html")
  \/ (namespace = "dash_bootstrap_components" /\ library = "dbc") ->
  sget "namespace" d = Some (PStr namespace) ->
  forall children,
    (let namespace := default PNone (sget "namespace" d) in
     if eq_str namespace "dash_html_components" then
       html_or_dbc "html" d children
     else if eq_str namespace "dash_bootstrap_components" then
       html_or_dbc "dbc" d children
     else graph_or_unknown d)
    = html_or_dbc library d children.
Proof.
  intros [[-> ->]|[-> ->]] Hns children; rewrite Hns; reflexivity.
Qed.

Lemma has_namespace (d : sdict) (v : pyval) :
  sget "namespace" d = Some v -> sin "namespace" d = true.
Proof. unfold sin, dict_in, sget. intros ->. reflexivity. Qed.

(** X22.  A component description (a dict with a ["namespace"] entry)
    without a ["type"] entry raises [KeyError] for ["type"], whatever its
    namespace; one without a ["props"] entry never converts. *)
Theorem description_needs_type_and_props (d : sdict) :
  sin "namespace" d = true ->
  (sget "type" d = None ->
     convert_to_dash_component (PDict d) = Failed (KeyError "type"))
  /\ (sget "props" d = None ->
        exists e, convert_to_dash_component (PDict d) = Failed e).
Proof.
  intros Hns. rewrite (convert_description d Hns). cbn zeta. split.
  - intros Htype. unfold html_or_dbc, graph_or_unknown. rewrite Htype.
    destruct (eq_str _ _); [reflexivity|]. destruct (eq_str _ _); reflexivity.
  - intros Hprops. unfold html_or_dbc, graph_or_unknown. rewrite Hprops.
    destruct (eq_str _ "dash_html_components");
      [|destruct (eq_str _ "dash_bootstrap_components")];
      destruct (sget "type" d) as [[| | |cls| |]|]; eauto;
      try (destruct (has_attribute _ cls); eauto);
      simpl; try (destruct (String.eqb cls "Graph"); eauto).
Qed.

(** X23.  A description whose namespace is neither that of the html
    components nor that of the bootstrap components, and whose type is not
    "Graph", raises [ValueError] for the element. *)
Theorem unknown_element_raises_value_error (d : sdict) (type : pyval) :
  sin "namespace" d = true ->
  eq_str (default PNone (sget "namespace" d)) "dash_html_components" = false ->
  eq_str (default PNone (sget "namespace" d)) "dash_bootstrap_components"
    = false ->
  sget "type" d = Some type -> eq_str type "Graph" = false ->
  convert_to_dash_component (PDict d) = Failed (ValueError (PDict d)).
Proof.
  intros Hns Hhtml Hdbc Htype Hgraph.
  rewrite (convert_description d Hns). cbn zeta. rewrite Hhtml, Hdbc.
  unfold graph_or_unknown. rewrite Htype, Hgraph. reflexivity.
Qed.

(** X24.  For a description of an html or bootstrap component the class is
    looked up first: a type that names nothing in the library raises
    [AttributeError], and a type that is not a string raises [TypeError],
    whatever the props are (missing, malformed or with children that do not
    convert). *)
Theorem class_is_looked_up_first (d : sdict) (namespace library : string)
    (type : pyval) :
  (namespace = "dash_html_components" /\ library = "html")
  \/ (namespace = "dash_bootstrap_components" /\ library = "dbc") ->
  sget "namespace" d = Some (PStr namespace) ->
  sget "type" d = Some type ->
  (forall cls, type = PStr cls -> has_attribute library cls = false ->
     convert_to_dash_component (PDict d) = Failed (Builtin AttributeError))
  /\ ((forall cls, type <> PStr cls) ->
      convert_to_dash_component (PDict d) = Failed (Builtin TypeError)).
Proof.
  intros Hlib Hns Htype.
  rewrite (convert_description d (has_namespace _ _ Hns)).
  rewrite (library_branch d namespace library Hlib Hns).
  unfold html_or_dbc. rewrite Htype. split.
  - intros cls -> Hmissing. rewrite Hmissing. reflexivity.
  - intros Hnot. destruct type; try reflexivity. exfalso. eapply Hnot. reflexivity.
Qed.

(** X25.  When the children of an html or bootstrap component description
    do not convert, neither does the description: it fails with the
    exception of its children. *)
Theorem failure_of_children_propagates (d props : sdict)
    (namespace library cls : string) (children : pyval) (x : raised) :
  (namespace = "dash_html_components" /\ library = "html")
  \/ (namespace = "dash_bootstrap_components" /\ library = "dbc") ->
  sget "namespace" d = Some (PStr namespace) ->
  sget "type" d = Some (PStr cls) -> has_attribute library cls = true ->
  sget "props" d = Some (PDict props) ->
  sget "children" props = Some children ->
  convert_to_dash_component children = Failed x ->
  convert_to_dash_component (PDict d) = Failed x.
Proof.
  intros Hlib Hns Htype Hclass Hprops Hchildren Hfail.
  rewrite (convert_description d (has_namespace _ _ Hns)).
  rewrite (library_branch d namespace library Hlib Hns).
  unfold html_or_dbc. rewrite Htype, Hclass, Hprops, Hchildren, Hfail.
  reflexivity.
Qed.

(** X26.  Of the props of an html or bootstrap component description only
    ["children"] is converted: when the description converts, the result is
    a component of the class named by the type, whose keyword arguments
    other than ["children"] are the props as they came, a component
    description among them staying a dict; the converted children, when
    there are any, come last. *)
Theorem only_children_are_converted (d : sdict) (namespace library : string)
    (r : converted) :
  (namespace = "dash_html_components" /\ library = "html")
  \/ (namespace = "dash_bootstrap_components" /\ library = "dbc") ->
  sget "namespace" d = Some (PStr namespace) ->
  convert_to_dash_component (PDict d) = Done r ->
  exists (cls : string) (props : sdict) (kwargs : list (string * converted)),
    r = Component library cls kwargs
    /\ sget "type" d = Some (PStr cls)
    /\ sget "props" d = Some (PDict props)
    /\ (forall k c, In (k, c) kwargs -> k <> "children" ->
          exists v, c = Value v /\ In (k, v) props)
    /\ match sget "children" props with
       | None => kwargs = untouched props
       | Some children =>
           exists cc,
             convert_to_dash_component children = Done cc
             /\ kwargs = (untouched (dict_del String.eqb "children" props)
                            ++ [("children", cc)])%list
       end.
Proof.
  intros Hlib Hns.
  rewrite (convert_description d (has_namespace _ _ Hns)).
  rewrite (library_branch d namespace library Hlib Hns).
  unfold html_or_dbc, construct.
  destruct (sget "type" d) as [[| | |cls| |]|]; try discriminate.
  destruct (has_attribute library cls); [|discriminate].
  destruct (sget "props" d) as [[| | |s| |props]|]; try discriminate.
  { destruct (index 0 "children" s); discriminate. }
  assert (Huntouched : forall (items : sdict) k c,
             In (k, c) (untouched items) -> exists v, c = Value v /\ In (k, v) items).
  { intros items k c Hin. unfold untouched in Hin.
    apply in_map_iff in Hin as ([k' v] & [= <- <-] & Hin). eauto. }
  destruct (sget "children" props) as [children|] eqn:Hchildren.
  - destruct (convert_to_dash_component children) as [cc|x] eqn:Hcc;
      [|discriminate].
    destruct (instantiate library cls _); [discriminate|].
    intros [= <-]. eexists cls, props, _.
    split; [reflexivity|]. split; [reflexivity|]. split; [reflexivity|].
    split; [|rewrite Hchildren; exists cc; split; [exact Hcc | reflexivity]].
    intros k c Hin Hk. apply in_app_or in Hin as [Hin|[[= <- <-]|[]]];
      [|congruence].
    destruct (Huntouched _ _ _ Hin) as (v & -> & Hv).
    exists v. split; [reflexivity|]. eapply dict_del_subset. exact Hv.
  - destruct (instantiate library cls _); [discriminate|].
    intros [= <-]. eexists cls, props, _.
    split; [reflexivity|]. split; [reflexivity|]. split; [reflexivity|].
    split; [|rewrite Hchildren; reflexivity].
    intros k c Hin _. apply Huntouched. exact Hin.
Qed.

End ConvertFacts.

(** ** Registration of the callbacks *)

Section RegistrationFacts.
Context {A Payload : Type} {Acq : DataAcquirer A} {Ext : Externals}
  {Wire : Wiring}.
Implicit Types (self : LiveViewTabController) (w : world A Payload).

(** With a list of values and a list of ids for each component the grouping
    loop raises nothing but [TypeError]. *)
Lemma group_loop_in_range (components : list string)
    (values_by_type ids_by_type : list (list pyval)) (i : nat)
    (acc : list (string * params)) w (e : exn) :
  (length components + i <= length values_by_type)%nat ->
  (length components + i <= length ids_by_type)%nat ->
  fst (group_loop (A:=A) (Payload:=Payload)
         values_by_type ids_by_type i components acc w) = Raised e ->
  e = TypeError.
Proof.
  revert i acc w.
  induction components as [|c components IH]; intros i acc w Hv Hi;
    simpl in Hv, Hi; [discriminate|].
  cbn [group_loop].
  destruct (lookup_lt_is_Some_2 values_by_type i) as [values ->]; [lia|].
  destruct (lookup_lt_is_Some_2 ids_by_type i) as [ids ->]; [lia|].
  unfold mbind, M_bind.
  pose proof (parse_outcome c values ids w) as Hfst.
  destruct (_parse_component_parameters c values ids w) as [[p|e'] w1];
    simpl in Hfst.
  - destruct p; apply IH; lia.
  - simpl. intros [= <-].
    destruct (forallb _ _) in Hfst; [discriminate|]. congruence.
Qed.

(** X27.  Every output the two registered callbacks write to is a property
    of a component that [get_layout] renders: the toggle button, the status
    badge and the hidden div of the parameter callback are all in the
    layout, under the ids the callbacks name. *)
Theorem callback_outputs_are_in_the_layout
    self (a : A) (orchestrator_stores shared_viewer_store_ids : sdict)
    (registered : callback) (output : dependency) :
  In registered
     (fst (register_callbacks self a orchestrator_stores
             shared_viewer_store_ids)) ->
  In output (outputs registered) ->
  exists n : node,
    In n (nodes (layout_tree self a))
    /\ sget "id" (props_of n) = Some (target output).
Proof.
  intros Hregistered Houtput.
  assert (Hbutton : exists n, In n (nodes (layout_tree self a))
            /\ sget "id" (props_of n)
               = Some (_get_id self _TOGGLE_ACQ_BUTTON_ID_SUFFIX)).
  { eexists (Elem "dbc.Button" _ _). split.
    - unfold layout_tree. cbn [nodes flat_map app In].
      repeat (first [left; reflexivity | right]).
    - reflexivity. }
  assert (Hbadge : exists n, In n (nodes (layout_tree self a))
            /\ sget "id" (props_of n)
               = Some (_get_id self _ACQUIRER_STATUS_INDICATOR_ID_SUFFIX)).
  { eexists (Elem "dbc.Badge" _ _). split.
    - unfold layout_tree. cbn [nodes flat_map app In].
      repeat (first [left; reflexivity | right]).
    - reflexivity. }
  assert (Hdummy : exists n, In n (nodes (layout_tree self a))
            /\ sget "id" (props_of n)
               = Some (_get_id self _DUMMY_OUTPUT_ACQUIRER_UPDATE_SUFFIX)).
  { eexists (Elem "html.Div" []
               (("id", _get_id self _DUMMY_OUTPUT_ACQUIRER_UPDATE_SUFFIX) :: _)).
    split.
    - unfold layout_tree. cbn [nodes flat_map app].
      repeat apply in_cons.
      apply in_or_app; left. apply in_or_app; right. left. reflexivity.
    - reflexivity. }
  unfold register_callbacks, _register_acquisition_control_callback,
    _register_parameter_update_callback in Hregistered.
  cbn [fst In] in Hregistered.
  destruct Hregistered as [<-|[<-|[]]]; cbn [outputs In] in Houtput.
  - destruct Houtput as [<-|[<-|[<-|[<-|[]]]]]; assumption.
  - destruct Houtput as [<-|[]]. assumption.
Qed.

(** X28.  The parameter callback is registered with one input and one state
    for each component of the acquirer; called with one argument per input
    followed by one per state, the handler finds a list of values and a list
    of ids for every component: it reaches the call of [update_parameters]
    unless a parameter name makes the parsing raise [TypeError]. *)
Theorem registered_arguments_are_in_range self (a : A)
    (args : list (list pyval)) w :
  let registered := _register_parameter_update_callback self a in
  length args = (length (inputs registered) + length (states registered))%nat ->
  let r := handle_acquirer_parameter_update (A:=A) (Payload:=Payload)
             (get_components a) args w in
  length (inputs registered) = length (get_components a)
  /\ length (states registered) = length (get_components a)
  /\ ((exists grouped,
         calls (snd r) = (calls w ++ [CallUpdateParameters grouped])%list)
      \/ (fst r = Raised TypeError /\ calls (snd r) = calls w)).
Proof.
  intros registered Hargs r. subst registered r.
  unfold _register_parameter_update_callback in *. cbn [inputs states] in *.
  rewrite !length_map in *. split; [reflexivity|]. split; [reflexivity|].
  unfold handle_acquirer_parameter_update, mbind, M_bind.
  set (n := length (get_components a)) in *.
  pose proof (group_loop_in_range (get_components a) (take n args)
                (take n (drop n args)) 0 [] w) as Hrange.
  destruct (group_loop_frame (get_components a) (take n args)
              (take n (drop n args)) 0 [] w) as [[more Hsnd] _].
  destruct (group_loop (take n args) (take n (drop n args)) 0
              (get_components a) [] w) as [[grouped|e] w1];
    simpl in Hrange, Hsnd; subst w1.
  - left. exists grouped. unfold acquirer_method. simpl.
    destruct (update_parameters grouped (acquirer w)) as [[e|] a']; reflexivity.
  - right. simpl. split; [|reflexivity]. f_equal.
    apply Hrange; [| |reflexivity].
    + rewrite length_take. fold n. lia.
    + rewrite length_take, length_drop. fold n. lia.
Qed.

End RegistrationFacts.

(** ** The further properties on concrete inputs *)

Import Probe Shelf Wired.

Lemma coherent_answer_to_a_click :
  let triggered_id :=
    PDict [ ("type", PStr "live-view-tab-controller");
            ("index", PStr "toggle-acq-button") ] in
  fst (handle_acquisition_control_and_status_update
         controller (PInt 1) PNone triggered_id (initial running))
    = Returned ("Start Acquisition", "success", "STOPPED", "secondary")
  /\ "STOPPED" <> "RUNNING".
Proof.
  intros triggered_id.
  assert (Hanswer :
    fst (handle_acquisition_control_and_status_update
           controller (PInt 1) PNone triggered_id (initial running))
      = Returned ("Start Acquisition", "success", "STOPPED", "secondary"))
    by reflexivity.
  split; [exact Hanswer|].
  destruct (answer_is_coherent (Ext:=externals) controller (PInt 1) PNone
              triggered_id (initial running) _ _ _ _ Hanswer)
    as [(Hstop & _)|(_ & Hnot & _)]; [discriminate Hstop | exact Hnot].
Defined.

Lemma numeric_status_raises :
  let w := showing [("status", PInt 3)] in
  reported_status (acquirer w) = None
  /\ fst (handle_acquisition_control_and_status_update
            controller PNone PNone PNone w) = Raised AttributeError.
Proof.
  intros w.
  assert (Hstatus : reported_status (acquirer w) = None) by reflexivity.
  split; [exact Hstatus|].
  exact (proj1 (status_without_upper_raises (Ext:=externals)
                  controller PNone PNone PNone w Hstatus)).
Defined.

Lemma empty_snapshot_is_unknown :
  let w := showing [] in
  sget "status" (get_latest_data (acquirer w)) = None
  /\ fst (handle_acquisition_control_and_status_update
            controller PNone PNone PNone w)
     = Returned ("Start Acquisition", "warning", "UNKNOWN", "warning").
Proof.
  intros w.
  assert (Hmissing : sget "status" (get_latest_data (acquirer w)) = None)
    by reflexivity.
  split; [exact Hmissing|].
  destruct (missing_status_is_unknown (Ext:=externals)
              controller PNone PNone PNone w Hmissing) as [Hsignal _].
  exact (proj1 (Hsignal eq_refl)).
Defined.

Lemma click_then_signal_on_stopped_acquirer :
  let triggered_id :=
    PDict [ ("type", PStr "live-view-tab-controller");
            ("index", PStr "toggle-acq-button") ] in
  let r := handle_acquisition_control_and_status_update
             controller (PInt 1) PNone triggered_id (initial stopped) in
  is_button_click controller triggered_id = true
  /\ is_button_click controller (PStr "main-status-alert") = false
  /\ reported_status stopped = Some "STOPPED"
  /\ reported_status (acquirer (snd r)) = Some "RUNNING"
  /\ fst (handle_acquisition_control_and_status_update
            controller PNone (PStr "Acquiring") (PStr "main-status-alert")
            (snd r))
     = Returned ("Stop Acquisition", "danger", "RUNNING", "success").
Proof.
  intros triggered_id r.
  assert (Hclick : is_button_click controller triggered_id = true)
    by reflexivity.
  assert (Hsignal : is_button_click controller (PStr "main-status-alert") = false)
    by reflexivity.
  assert (Hstatus : reported_status (acquirer (initial stopped)) = Some "STOPPED")
    by reflexivity.
  assert (Hreturned : exists answer, fst r = Returned answer)
    by (eexists; reflexivity).
  assert (Hafter : reported_status (acquirer (snd r))
                   = Some (if String.eqb "STOPPED" "RUNNING"
                           then "STOPPED" else "RUNNING"))
    by reflexivity.
  split; [exact Hclick|]. split; [exact Hsignal|]. split; [exact Hstatus|].
  split; [exact Hafter|].
  exact (click_answer_is_confirmed (Ext:=externals)
           controller (PInt 1) PNone triggered_id
           PNone (PStr "Acquiring") (PStr "main-status-alert")
           (initial stopped) "STOPPED" Hclick Hsignal Hstatus Hreturned Hafter).
Defined.

Lemma capitalisation_and_other_entries_do_not_matter :
  let w := showing [("status", PStr "running")] in
  let w' := showing [("frames", PInt 7); ("status", PStr "RUNNING")] in
  reported_status (acquirer w) = reported_status (acquirer w')
  /\ reported_error (acquirer w) = reported_error (acquirer w')
  /\ fst (handle_acquisition_control_and_status_update
            controller PNone PNone PNone w)
     = fst (handle_acquisition_control_and_status_update
              controller PNone PNone (PStr "main-status-alert") w').
Proof.
  intros w w'.
  assert (Hstatus : reported_status (acquirer w) = reported_status (acquirer w'))
    by reflexivity.
  assert (Herror : reported_error (acquirer w) = reported_error (acquirer w'))
    by reflexivity.
  assert (Hsignal : is_button_click controller PNone = false) by reflexivity.
  assert (Hsignal' : is_button_click controller (PStr "main-status-alert") = false)
    by reflexivity.
  split; [exact Hstatus|]. split; [exact Herror|].
  exact (answer_depends_on_status_and_error (Ext:=externals)
           controller PNone PNone PNone PNone PNone (PStr "main-status-alert")
           w w' Hsignal Hsignal' Hstatus Herror).
Defined.

(** The batch of six widgets with one id missing, counted. *)
Lemma six_ids_five_pairs_one_warning :
  let named := fun name => PDict [("type", PStr "x-axis"); ("index", PStr name)] in
  let ids := [ named "span"; named "points"; PNone; named "offset";
               named "gain"; named "delay" ] in
  let values := [PInt 3; PInt 5; PInt 0; PInt 1; PInt 2; PInt 4] in
  let r := _parse_component_parameters "x-axis" values ids (initial stopped) in
  fst r = Returned (parsed_params values ids)
  /\ exists more : list (level * message),
       logs (snd r) = more
       /\ (length more + 5)%nat = 6%nat.
Proof.
  intros named ids values r.
  assert (Hreturned : fst r = Returned (parsed_params values ids))
    by reflexivity.
  split; [exact Hreturned|].
  destruct (every_id_is_used_or_logged "x-axis" values ids (initial stopped)
              _ Hreturned) as [Hcount _].
  destruct Hcount as (more & Hlogs & Hsum & Hlevel); try discriminate.
  exists more. split; [exact Hlogs | exact Hsum].
Defined.

Lemma parsed_batch_is_a_dict :
  let named := fun name => PDict [("type", PStr "x-axis"); ("index", name)] in
  let ids := [named (PInt 1); named (PBool true); named (PStr "gain")] in
  let values := [PInt 10; PInt 20; PInt 30] in
  let r := _parse_component_parameters "x-axis" values ids (initial stopped) in
  fst r = Returned [(PInt 1, PInt 20); (PStr "gain", PInt 30)]
  /\ unique_keys key_eqb [(PInt 1, PInt 20); (PStr "gain", PInt 30)].
Proof.
  intros named ids values r.
  assert (Hreturned :
    fst r = Returned [(PInt 1, PInt 20); (PStr "gain", PInt 30)])
    by reflexivity.
  split; [exact Hreturned|].
  exact (proj1 (parsed_mapping_is_a_dict "x-axis" values ids (initial stopped)
                  _ Hreturned)).
Defined.

Lemma third_id_has_no_value :
  let named := fun name => PDict [("type", PStr "x-axis"); ("index", PStr name)] in
  let ids := [named "span"; named "points"; named "offset"] in
  let values := [PInt 3; PInt 5] in
  let r := _parse_component_parameters "x-axis" values ids (initial stopped) in
  fst r = Returned [(PStr "span", PInt 3); (PStr "points", PInt 5)]
  /\ values <> []
  /\ In (LvlWarning, MsgValueMissing (named "offset") "x-axis") (logs (snd r)).
Proof.
  intros named ids values r.
  assert (Hreturned :
    fst r = Returned [(PStr "span", PInt 3); (PStr "points", PInt 5)])
    by reflexivity.
  assert (Hvalues : values <> []) by discriminate.
  split; [exact Hreturned|]. split; [exact Hvalues|].
  apply (id_without_value_is_logged "x-axis" values ids (initial stopped)
           _ 2%nat (named "offset") (PStr "offset") Hreturned Hvalues);
    [reflexivity | reflexivity | simpl; lia].
Defined.

Lemma two_values_too_many :
  let ids := [PDict [("type", PStr "x-axis"); ("index", PStr "span")]] in
  (length ids <= length [PInt 3])%nat
  /\ _parse_component_parameters "x-axis" ([PInt 3] ++ [PInt 5; PInt 8]) ids
       (initial stopped)
     = _parse_component_parameters "x-axis" [PInt 3] ids (initial stopped).
Proof.
  intros ids.
  assert (Hlen : (length ids <= length [PInt 3])%nat) by (simpl; lia).
  split; [exact Hlen|].
  exact (surplus_values_are_ignored "x-axis" [PInt 3] [PInt 5; PInt 8] ids
           (initial stopped) Hlen).
Defined.

Lemma three_arguments_for_two_components :
  let components := ["x-axis"; "y-axis"] in
  let args := [[PInt 3]; []; [PDict [("index", PStr "span")]]] in
  let r := handle_acquirer_parameter_update components args (initial stopped) in
  (length args < 2 * length components)%nat
  /\ (exists e, fst r = Raised e)
  /\ calls (snd r) = [].
Proof.
  intros components args r.
  assert (Hshort : (length args < 2 * length components)%nat) by (simpl; lia).
  split; [exact Hshort|].
  destruct (too_few_arguments_raise (Acq:=Reference.acquirer_interface)
              components args (initial stopped) Hshort)
    as (e & Hraised & _ & Hcalls & _).
  split; [exists e; exact Hraised | exact Hcalls].
Defined.

Lemma a_fifth_argument_is_ignored :
  let components := ["x-axis"; "y-axis"] in
  let args := [ [PInt 3]; [];
                [PDict [("type", PStr "x-axis"); ("index", PStr "span")]]; [] ] in
  (2 * length components <= length args)%nat
  /\ handle_acquirer_parameter_update components (args ++ [[PInt 9]])
       (initial stopped)
     = handle_acquirer_parameter_update components args (initial stopped).
Proof.
  intros components args.
  assert (Hlen : (2 * length components <= length args)%nat) by (simpl; lia).
  split; [exact Hlen|].
  exact (surplus_arguments_are_ignored (Acq:=Reference.acquirer_interface)
           components args [[PInt 9]] (initial stopped) Hlen).
Defined.

Lemma no_widget_has_a_value :
  let components := ["x-axis"; "y-axis"] in
  let args := [[]; []; [PNone]; []] in
  let r := handle_acquirer_parameter_update components args (initial stopped) in
  (2 * length components <= length args)%nat
  /\ calls (snd r) = [CallUpdateParameters []]
  /\ logs (snd r) = [].
Proof.
  intros components args r.
  assert (Hlen : (2 * length components <= length args)%nat) by (simpl; lia).
  assert (Hempty : forall j, (j < length components)%nat -> args !! j = Some []).
  { intros [|[|j]] Hj; simpl in *; try reflexivity; lia. }
  split; [exact Hlen|].
  exact (no_values_forward_empty_mapping (Acq:=Reference.acquirer_interface)
           components args (initial stopped) Hlen Hempty).
Defined.

Lemma two_activations_on_an_empty_registry :
  let first := on_tab_activated controller (initial stopped) in
  let second := on_tab_activated controller (snd first) in
  "data_pointer" <> "ui_state" /\ "data_pointer" <> "layout_config"
  /\ data_registry.get_current_version "live" (registry (initial stopped)) = None
  /\ exists updates updates',
       fst first = Returned updates /\ fst second = Returned updates'
       /\ sget "data_pointer" updates =
          Some (PDict [("key", PStr "live"); ("version", PStr "uuid-0")])
       /\ sget "data_pointer" updates' =
          Some (PDict [("key", PStr "live"); ("version", PStr "uuid-1")]).
Proof.
  intros first second.
  assert (Hui : "data_pointer" <> "ui_state") by discriminate.
  assert (Hlayout : "data_pointer" <> "layout_config") by discriminate.
  assert (Hmiss : data_registry.get_current_version "live"
                    (registry (initial stopped)) = None) by reflexivity.
  split; [exact Hui|]. split; [exact Hlayout|]. split; [exact Hmiss|].
  destruct (each_activation_draws_its_own_placeholder (Ext:=externals)
              controller (initial stopped) Hui Hlayout Hmiss)
    as (updates & updates' & H1 & H2 & H3 & H4 & _).
  exists updates, updates'. repeat split; assumption.
Defined.

Lemma two_activations_with_live_data :
  let w := {| acquirer := running; calls := []; logs := [];
              registry := {[ "live" := (tt, 7) ]}; uuid_count := 0 |} in
  let first := on_tab_activated controller w in
  data_registry.get_current_version "live" (registry w) = Some 7
  /\ fst (on_tab_activated controller (snd first)) = fst first
  /\ uuid_count (snd first) = 0%nat.
Proof.
  intros w first.
  assert (Hversion : data_registry.get_current_version "live" (registry w)
                     = Some 7) by reflexivity.
  split; [exact Hversion|].
  destruct (activation_is_repeatable_with_live_data (Ext:=externals)
              controller w 7 Hversion) as (Hsame & Hcount & _).
  split; [exact Hsame | exact Hcount].
Defined.

Lemma activation_with_the_contract_names :
  "data_pointer" <> "ui_state" /\ "data_pointer" <> "layout_config"
  /\ "ui_state" <> "layout_config"
  /\ exists updates,
       fst (on_tab_activated controller (initial stopped)) = Returned updates
       /\ map fst updates = ["data_pointer"; "ui_state"; "layout_config"].
Proof.
  assert (Hui : "data_pointer" <> "ui_state") by discriminate.
  assert (Hlayout : "data_pointer" <> "layout_config") by discriminate.
  assert (Hdiff : "ui_state" <> "layout_config") by discriminate.
  split; [exact Hui|]. split; [exact Hlayout|]. split; [exact Hdiff|].
  exact (activation_returns_three_entries (Ext:=externals)
           controller (initial stopped) Hui Hlayout Hdiff).
Defined.

Import dash_utils.

Lemma nested_plain_data :
  let elem := PList [ PInt 1;
                      PDict [("label", PStr "x"); ("ticks", PList [PInt 0])] ] in
  plain elem = true
  /\ convert_to_dash_component elem
     = Done (Items [ Value (PInt 1);
                     Mapping [ ("label", Value (PStr "x"));
                               ("ticks", Items [Value (PInt 0)]) ] ]).
Proof.
  intros elem.
  assert (Hplain : plain elem = true) by reflexivity.
  split; [exact Hplain|].
  exact (plain_data_passes_through elem Hplain).
Defined.

Lemma description_without_type :
  let d := [("namespace", PStr "dash_html_components"); ("props", PDict [])] in
  sin "namespace" d = true /\ sget "type" d = None
  /\ convert_to_dash_component (PDict d) = Failed (KeyError "type").
Proof.
  intros d.
  assert (Hns : sin "namespace" d = true) by reflexivity.
  assert (Htype : sget "type" d = None) by reflexivity.
  split; [exact Hns|]. split; [exact Htype|].
  exact (proj1 (description_needs_type_and_props d Hns) Htype).
Defined.

Lemma description_of_a_slider :
  let d := [ ("namespace", PStr "dash_core_components"); ("type", PStr "Slider");
             ("props", PDict [("min", PInt 0)]) ] in
  sin "namespace" d = true
  /\ sget "type" d = Some (PStr "Slider")
  /\ convert_to_dash_component (PDict d) = Failed (ValueError (PDict d)).
Proof.
  intros d.
  assert (Hns : sin "namespace" d = true) by reflexivity.
  assert (Htype : sget "type" d = Some (PStr "Slider")) by reflexivity.
  split; [exact Hns|]. split; [exact Htype|].
  exact (unknown_element_raises_value_error d (PStr "Slider") Hns
           eq_refl eq_refl Htype eq_refl).
Defined.

Lemma description_of_an_unknown_html_class :
  let d := [ ("namespace", PStr "dash_html_components"); ("type", PStr "Blink") ] in
  sget "namespace" d = Some (PStr "dash_html_components")
  /\ sget "type" d = Some (PStr "Blink")
  /\ has_attribute "html" "Blink" = false
  /\ convert_to_dash_component (PDict d) = Failed (Builtin AttributeError).
Proof.
  intros d.
  assert (Hns : sget "namespace" d = Some (PStr "dash_html_components"))
    by reflexivity.
  assert (Htype : sget "type" d = Some (PStr "Blink")) by reflexivity.
  assert (Hmissing : has_attribute "html" "Blink" = false) by reflexivity.
  split; [exact Hns|]. split; [exact Htype|]. split; [exact Hmissing|].
  exact (proj1 (class_is_looked_up_first d "dash_html_components" "html"
                  (PStr "Blink") (or_introl (conj eq_refl eq_refl)) Hns Htype)
           "Blink" eq_refl Hmissing).
Defined.

Lemma slider_among_the_children :
  let slider := PDict [ ("namespace", PStr "dash_core_components");
                        ("type", PStr "Slider"); ("props", PDict []) ] in
  let children := PList [PStr "Range"; slider] in
  let props := [("children", children); ("className", PStr "p-2")] in
  let d := [ ("namespace", PStr "dash_html_components"); ("type", PStr "Div");
             ("props", PDict props) ] in
  convert_to_dash_component children = Failed (ValueError slider)
  /\ convert_to_dash_component (PDict d) = Failed (ValueError slider).
Proof.
  intros slider children props d.
  assert (Hchildren : convert_to_dash_component children
                      = Failed (ValueError slider)) by reflexivity.
  split; [exact Hchildren|].
  exact (failure_of_children_propagates d props "dash_html_components" "html"
           "Div" children (ValueError slider)
           (or_introl (conj eq_refl eq_refl)) eq_refl eq_refl eq_refl eq_refl
           eq_refl Hchildren).
Defined.

Lemma button_with_a_description_in_a_prop :
  let badge := PDict [ ("namespace", PStr "dash_bootstrap_components");
                       ("type", PStr "Badge"); ("props", PDict []) ] in
  let d := [ ("namespace", PStr "dash_bootstrap_components");
             ("type", PStr "Button");
             ("props", PDict [ ("children", PStr "Start"); ("title", badge) ]) ] in
  sget "namespace" d = Some (PStr "dash_bootstrap_components")
  /\ convert_to_dash_component (PDict d)
     = Done (Component "dbc" "Button"
               [("title", Value badge); ("children", Value (PStr "Start"))])
  /\ exists v, Value badge = Value v.
Proof.
  intros badge d.
  assert (Hns : sget "namespace" d = Some (PStr "dash_bootstrap_components"))
    by reflexivity.
  assert (Hdone : convert_to_dash_component (PDict d)
                  = Done (Component "dbc" "Button"
                            [("title", Value badge);
                             ("children", Value (PStr "Start"))]))
    by reflexivity.
  split; [exact Hns|]. split; [exact Hdone|].
  destruct (only_children_are_converted d "dash_bootstrap_components" "dbc" _
              (or_intror (conj eq_refl eq_refl)) Hns Hdone)
    as (cls & props & kwargs & Hr & _ & _ & Hraw & _).
  injection Hr as <- <-.
  destruct (Hraw "title" (Value badge)) as (v & Hv & _);
    [left; reflexivity | discriminate |].
  exists v. exact Hv.
Defined.

Lemma outputs_of_the_reference_controller :
  let registered := _register_parameter_update_callback controller two_axes in
  let output := {| target := _get_id controller _DUMMY_OUTPUT_ACQUIRER_UPDATE_SUFFIX;
                   property := "children" |} in
  In registered (fst (register_callbacks controller two_axes [] []))
  /\ In output (outputs registered)
  /\ exists n, In n (nodes (layout_tree controller two_axes))
               /\ sget "id" (props_of n) = Some (target output).
Proof.
  intros registered output.
  assert (Hregistered : In registered
                          (fst (register_callbacks controller two_axes [] [])))
    by (right; left; reflexivity).
  assert (Houtput : In output (outputs registered)) by (left; reflexivity).
  split; [exact Hregistered|]. split; [exact Houtput|].
  exact (callback_outputs_are_in_the_layout (Ext:=externals) (Wire:=wiring)
           controller two_axes [] [] registered output Hregistered Houtput).
Defined.

Lemma arguments_for_two_axes :
  let registered := _register_parameter_update_callback controller two_axes in
  let args := [ [PInt 3]; [];
                [PDict [("type", PStr "x-axis"); ("index", PStr "span")]]; [] ] in
  let r := handle_acquirer_parameter_update (get_components two_axes) args
             (initial two_axes) in
  length args = (length (inputs registered) + length (states registered))%nat
  /\ length (inputs registered) = 2%nat
  /\ ((exists grouped, calls (snd r) = [CallUpdateParameters grouped])
      \/ (fst r = Raised TypeError /\ calls (snd r) = [])).
Proof.
  intros registered args r.
  assert (Hargs : length args
                  = (length (inputs registered) + length (states registered))%nat)
    by reflexivity.
  split; [exact Hargs|].
  destruct (registered_arguments_are_in_range (Ext:=externals) (Wire:=wiring)
              controller two_axes args (initial two_axes) Hargs)
    as (Hinputs & _ & Hreach).
  split; [exact Hinputs | exact Hreach].
Defined.
